(** * End-to-end ML notebooks: a shallow embedding of the notebook code

    The repository is a sequence of Jupyter notebooks: 02 data exploration
    and feature engineering, 03 model training, 04 model deployment and
    monitoring, 07 model build workflow.  The code cells are Python; this
    development embeds what they compute themselves:

    - [Version]: the SDK version gate [versiontuple] (first code cell of
      every notebook);
    - [PyList], [PyStr]: the list and string operations the cells use;
    - [Baseline]: the feature reordering of the baseline files (04);
    - [Registry]: the paths of the deploy-from-registry section (07);
    - [Glue], [Crawler]: the table-schema update and the crawler polling
      loop (02);
    - [Training], [Workflow]: the hyperparameters of the manual run (03),
      the pipeline definition and its executions (07);
    - [Storage]: the cells that write to storage after baselining (04);
    - [Notebook]: the statements of all code cells, their exception
      handlers and the operations they call.

    Python values are modelled as the code uses them: [str] as [string]
    (the sequence of its code points, all below 256), [int] as [Z], [list] as [list], [dict] as [gmap string _] or as an
    association list where the order of keys matters, exceptions as an
    explicit result type.  The managed services are outside the repository;
    where a statement depends on one, the service is a parameter (the
    crawler metrics, the contents of the store) or a small model stated
    next to it (the pipeline service). *)

From Stdlib Require Import ZArith Ascii String.
From stdpp Require Import gmap strings list fin_maps.

Local Open Scope Z_scope.
Local Open Scope string_scope.

(** ** Python results: a value or a raised exception *)

Inductive exn : Type :=
| ValueError
| IndexError
| KeyError
| TypeError
| AssertionError
| AttributeError
| FileNotFoundError
| ClientError.

Inductive result (A : Type) : Type :=
| Ok (a : A)
| Raise (e : exn).
Arguments Ok {A} a.
Arguments Raise {A} e.

Definition bind {A B : Type} (r : result A) (k : A -> result B) : result B :=
  match r with
  | Ok a => k a
  | Raise e => Raise e
  end.

Notation "x <- r ;; k" := (bind r (fun x => k))
  (at level 100, r at next level, right associativity).

Fixpoint map_result {A B : Type} (f : A -> result B) (l : list A)
  : result (list B) :=
  match l with
  | [] => Ok []
  | a :: l' => b <- f a ;; bs <- map_result f l' ;; Ok (b :: bs)
  end.

(** ** The SDK version gate

    <<
    required_version = '2.46.0'

    def versiontuple(v):
        return tuple(map(int, (v.split("."))))

    if versiontuple(sagemaker.__version__) < versiontuple(required_version):
        !{sys.executable} -m pip install -U sagemaker=={required_version}
        IPython.Application.instance().kernel.do_shutdown(True)
    >> *)

Module Version.

(** [str.split(sep)] for a one-character separator: the pieces between the
    occurrences of [sep]; always at least one piece. *)
Fixpoint split (sep : ascii) (s : string) : list string :=
  match s with
  | EmptyString => [EmptyString]
  | String c s' =>
      if Ascii.eqb c sep then EmptyString :: split sep s'
      else match split sep s' with
           | [] => [String c EmptyString]
           | w :: ws => String c w :: ws
           end
  end.

(** [int(s)], base 10, on a [str] whose characters are code points below
    256 (a [string] here is the sequence of these code points): surrounding
    white space is stripped, one sign is allowed, then decimal digits,
    single underscores allowed between digits.  Anything else raises
    [ValueError].  Below 256 the white space that [int] strips is tab to
    carriage return (9-13), the space (32), the next-line control (133)
    and the no-break space (160); the separators 28-31 are not stripped.
    Below 256 the only decimal digits are [0] to [9]. *)
Definition is_space (c : ascii) : bool :=
  let n := N_of_ascii c in
  ((9 <=? n)%N && (n <=? 13)%N) || (n =? 32)%N || (n =? 133)%N || (n =? 160)%N.

Definition digit_value (c : ascii) : option Z :=
  let n := N_of_ascii c in
  if ((48 <=? n)%N && (n <=? 57)%N) then Some (Z.of_N n - 48) else None.

Fixpoint lstrip (s : string) : string :=
  match s with
  | EmptyString => EmptyString
  | String c s' => if is_space c then lstrip s' else s
  end.

Fixpoint rstrip (s : string) : string :=
  match s with
  | EmptyString => EmptyString
  | String c s' =>
      match rstrip s' with
      | EmptyString => if is_space c then EmptyString else String c EmptyString
      | r => String c r
      end
  end.

Definition strip (s : string) : string := rstrip (lstrip s).

(** Digits after the sign.  [prev] records that the previous character was a
    digit, which is what an underscore or the end of the text requires. *)
Fixpoint int_body (acc : Z) (prev : bool) (s : string) : option Z :=
  match s with
  | EmptyString => if prev then Some acc else None
  | String c s' =>
      match digit_value c with
      | Some d => int_body (10 * acc + d) true s'
      | None =>
          if Ascii.eqb c "_" && prev then int_body acc false s' else None
      end
  end.

Definition int (s : string) : result Z :=
  let body (sign : Z) (t : string) : result Z :=
    match int_body 0 false t with
    | Some n => Ok (sign * n)
    | None => Raise ValueError
    end in
  match strip s with
  | String "+" t => body 1 t
  | String "-" t => body (-1) t
  | t => body 1 t
  end.

(** [tuple(map(int, v.split(".")))]: the first component that is not an
    integer literal raises. *)
Definition versiontuple (v : string) : result (list Z) :=
  map_result int (split "." v).

(** Python's [<] on tuples: the first position where the items differ
    decides; if there is none, the shorter tuple is the smaller. *)
Fixpoint tuple_lt (a b : list Z) : bool :=
  match a, b with
  | x :: a', y :: b' => if Z.eqb x y then tuple_lt a' b' else Z.ltb x y
  | [], _ :: _ => true
  | _, [] => false
  end.

Definition required_version : string := "2.46.0".

(** The condition of the [if]: [Ok true] runs the upgrade-and-restart
    branch, [Ok false] skips it. *)
Definition upgrade_branch_taken (installed : string) : result bool :=
  a <- versiontuple installed ;;
  b <- versiontuple required_version ;;
  Ok (tuple_lt a b).

(** *** The order the specification speaks of *)

(** A decimal integer literal: one or more ASCII digits. *)
Definition all_digits (s : string) : Prop :=
  forall c, In c (list_ascii_of_string s) -> is_Some (digit_value c).

Definition decimal (s : string) : Prop := s <> EmptyString /\ all_digits s.

(** Its numeric value, by positional weight. *)
Fixpoint numeral_value (s : string) : Z :=
  match s with
  | EmptyString => 0
  | String c s' =>
      default 0 (digit_value c) * 10 ^ Z.of_nat (String.length s')
      + numeral_value s'
  end.

(** A version string with the given components: joined by dots. *)
Fixpoint dotted (cs : list string) : string :=
  match cs with
  | [] => EmptyString
  | [c] => c
  | c :: cs' => c +:+ String "." (dotted cs')
  end.

(** Component-wise numeric order, lexicographic over integers. *)
Inductive numeric_precedes : list Z -> list Z -> Prop :=
| precedes_prefix y b : numeric_precedes [] (y :: b)
| precedes_head x y a b : x < y -> numeric_precedes (x :: a) (y :: b)
| precedes_tail x a b : numeric_precedes a b -> numeric_precedes (x :: a) (x :: b).

(** [s] written with [k] more leading zeros. *)
Fixpoint zeros (k : nat) (s : string) : string :=
  match k with
  | O => s
  | S k' => String "0" (zeros k' s)
  end.

End Version.

(** ** Python lists and strings as the notebooks use them *)

Module PyList.
Section Ops.
Context {A : Type}.

(** Index of [l[i]] and [del l[i]]: a negative index counts from the end;
    out of range is an [IndexError]. *)
Definition index (l : list A) (i : Z) : result nat :=
  let n := Z.of_nat (length l) in
  let j := if Z.ltb i 0 then i + n else i in
  if Z.leb 0 j && Z.ltb j n then Ok (Z.to_nat j) else Raise IndexError.

Definition getitem (l : list A) (i : Z) : result A :=
  j <- index l i ;;
  match l !! j with
  | Some x => Ok x
  | None => Raise IndexError
  end.

Definition delitem (l : list A) (i : Z) : result (list A) :=
  j <- index l i ;; Ok (delete j l).

(** [l.insert(i, x)]: the index is clamped to [0, len(l)], never an error. *)
Definition insert (l : list A) (i : Z) (x : A) : list A :=
  let n := Z.of_nat (length l) in
  let j := if Z.ltb i 0 then Z.max 0 (i + n) else Z.min i n in
  take (Z.to_nat j) l ++ x :: drop (Z.to_nat j) l.

End Ops.
End PyList.

Module PyStr.

(** [s.rfind(c)] for a one-character [c]: the highest index holding [c],
    or [-1]. *)
Fixpoint rfind_from (c : ascii) (s : string) (i last : Z) : Z :=
  match s with
  | EmptyString => last
  | String a s' => rfind_from c s' (i + 1) (if Ascii.eqb a c then i else last)
  end.

Definition rfind (c : ascii) (s : string) : Z := rfind_from c s 0 (-1).

(** [s[0:stop]]: a negative [stop] counts from the end, and the bound is
    clamped to [0, len(s)]. *)
Definition slice_to (s : string) (stop : Z) : string :=
  let n := Z.of_nat (String.length s) in
  let k := if Z.ltb stop 0 then Z.max 0 (stop + n) else Z.min stop n in
  substring 0 (Z.to_nat k) s.

Fixpoint contains (c : ascii) (s : string) : bool :=
  match s with
  | EmptyString => false
  | String a s' => Ascii.eqb a c || contains c s'
  end.

End PyStr.

(** ** Notebook 04: moving the target variable to the front of the baseline

    <<
    with open('baseline/statistics.json', 'r') as statistics_file:
        loaded_statistics = json.load(statistics_file)

    loaded_statistics['features'].insert(0, loaded_statistics['features'][-1])
    del loaded_statistics['features'][-1]

    with open('baseline/statistics.json', 'w') as statistics_file:
        json.dump(loaded_statistics, statistics_file)
    >>
    and the same cell for [constraints.json]. *)

Module Baseline.

(** The two statements on the list held under ['features']. *)
Definition reorder {A : Type} (features : list A) : result (list A) :=
  x <- PyList.getitem features (-1) ;;
  let features := PyList.insert features 0 x in
  PyList.delitem features (-1).

End Baseline.

(** ** Notebook 07: paths of the deploy-from-registry section

    <<
    sklearn_model_path = sklearn_model_data[0:sklearn_model_data.rfind('/')] + '/'
    xgboost_model_path = xgboost_model_data[0:sklearn_model_data.rfind('/')] + '/'
    >> *)

Module Registry.

Definition sklearn_model_path (sklearn_model_data : string) : string :=
  PyStr.slice_to sklearn_model_data (PyStr.rfind "/" sklearn_model_data) +:+ "/".

Definition xgboost_model_path (sklearn_model_data xgboost_model_data : string)
  : string :=
  PyStr.slice_to xgboost_model_data (PyStr.rfind "/" sklearn_model_data) +:+ "/".

(** *** The notions the specification uses *)

(** The parent-directory prefix of a URI: everything up to and including
    its last ['/'] (empty when there is none). *)
Fixpoint parent_prefix (s : string) : string :=
  match s with
  | EmptyString => EmptyString
  | String a s' =>
      if PyStr.contains "/" s' then String a (parent_prefix s')
      else if Ascii.eqb a "/" then String a EmptyString
      else EmptyString
  end.

(** The basename: what follows the last ['/']. *)
Fixpoint basename (s : string) : string :=
  match s with
  | EmptyString => EmptyString
  | String a s' =>
      if PyStr.contains "/" s' then basename s'
      else if Ascii.eqb a "/" then s'
      else s
  end.

End Registry.

(** ** Notebook 02: the Glue table-schema update

    <<
    del table['Table']['CatalogId']

    table['Table']['StorageDescriptor']['Columns'] = [{'Name': 'turbine_id', 'Type': 'string'},
                                                      ...
                                                      {'Name': 'breakdown', 'Type': 'string'}]
    updated_table = table['Table']
    updated_table.pop('DatabaseName', None)
    updated_table.pop('CreateTime', None)
    updated_table.pop('UpdateTime', None)
    updated_table.pop('CreatedBy', None)
    updated_table.pop('IsRegisteredWithLakeFormation', None)

    glue_client.update_table(
        DatabaseName='endtoendml-db',
        TableInput=updated_table
    )
    >> *)

Module Glue.

(** A column entry [{'Name': ..., 'Type': ...}]. *)
Record column : Type := Column { Name : string; Type_ : string }.

(** Values held by the table dictionary and by its storage descriptor. *)
Inductive svalue : Type :=
| SText (s : string)
| SColumns (cols : list column).

Inductive tvalue : Type :=
| TText (s : string)
| TDict (d : gmap string svalue).

Definition Columns : list column :=
  [ Column "turbine_id" "string";
    Column "turbine_type" "string";
    Column "wind_speed" "double";
    Column "rpm_blade" "double";
    Column "oil_temperature" "double";
    Column "oil_level" "double";
    Column "temperature" "double";
    Column "humidity" "double";
    Column "vibrations_frequency" "double";
    Column "pressure" "double";
    Column "wind_direction" "string";
    Column "breakdown" "string" ].

(** [d.pop(k, None)]: removes the key when present, never raises. *)
Definition pop (k : string) (d : gmap string tvalue) : gmap string tvalue :=
  delete k d.

(** The cell up to the call: from [table['Table']] as returned by
    [get_table] to the [TableInput] argument. *)
Definition updated_table (Table : gmap string tvalue)
  : result (gmap string tvalue) :=
  match Table !! "CatalogId" with
  | None => Raise KeyError
  | Some _ =>
      let Table := delete "CatalogId" Table in
      match Table !! "StorageDescriptor" with
      | None => Raise KeyError
      | Some (TText _) => Raise TypeError
      | Some (TDict sd) =>
          let sd := <["Columns" := SColumns Columns]> sd in
          let Table := <["StorageDescriptor" := TDict sd]> Table in
          Ok (pop "IsRegisteredWithLakeFormation"
                (pop "CreatedBy"
                   (pop "UpdateTime"
                      (pop "CreateTime"
                         (pop "DatabaseName" Table)))))
      end
  end.

(** The request sent by [glue_client.update_table]. *)
Record update_table_request : Type :=
  { DatabaseName : string; TableInput : gmap string tvalue }.

Definition update_table (Table : gmap string tvalue)
  : result update_table_request :=
  t <- updated_table Table ;;
  Ok {| DatabaseName := "endtoendml-db"; TableInput := t |}.

(** The columns a table dictionary registers. *)
Definition registered_columns (t : gmap string tvalue) : option (list column) :=
  match t !! "StorageDescriptor" with
  | Some (TDict sd) =>
      match sd !! "Columns" with
      | Some (SColumns cols) => Some cols
      | _ => None
      end
  | _ => None
  end.

Definition is_double (c : column) : bool := String.eqb (Type_ c) "double".

(** A table as the crawler leaves it: the keys the cell touches are there. *)
Definition crawled_table : gmap string tvalue :=
  <["Name" := TText "raw"]>
  (<["DatabaseName" := TText "endtoendml-db"]>
  (<["CatalogId" := TText "123456789012"]>
  (<["CreatedBy" := TText "arn:aws:sts::123456789012:assumed-role/crawler"]>
  (<["StorageDescriptor" :=
       TDict (<["Location" := SText "s3://bucket/endtoendmlsm/data/raw/"]>
              (<["Columns" := SColumns [Column "col0" "string"]]> ∅))]> ∅)))).

End Glue.

(** ** Notebook 02: waiting for the crawler

    <<
    glue_client.start_crawler(Name='endtoendml-crawler')

    while glue_client.get_crawler_metrics(CrawlerNameList=['endtoendml-crawler'])['CrawlerMetricsList'][0]['TablesCreated'] == 0:
        print('RUNNING')
        time.sleep(15)

    assert glue_client.get_crawler_metrics(CrawlerNameList=['endtoendml-crawler'])['CrawlerMetricsList'][0]['TablesCreated'] == 1
    >>

    The remote service is a function from the number of the
    [get_crawler_metrics] call (0 for the first) to the [TablesCreated]
    value that call reports. *)

Module Crawler.

Record state : Type :=
  { calls : nat;             (* get_crawler_metrics calls made *)
    printed : list string;   (* lines printed *)
    slept : Z }.             (* seconds spent in time.sleep *)

Definition init : state := {| calls := 0; printed := []; slept := 0 |}.

(** One evaluation of the loop condition. *)
Definition get_metric (TablesCreated : nat -> Z) (st : state) : Z * state :=
  (TablesCreated (calls st),
   {| calls := S (calls st); printed := printed st; slept := slept st |}).

(** The loop body. *)
Definition body (st : state) : state :=
  {| calls := calls st;
     printed := printed st ++ ["RUNNING"];
     slept := slept st + 15 |}.

(** The [while] loop, run for at most [fuel] evaluations of its condition:
    [None] when it is still running after that many. *)
Fixpoint poll (fuel : nat) (TablesCreated : nat -> Z) (st : state)
  : option state :=
  match fuel with
  | O => None
  | S fuel' =>
      let '(m, st) := get_metric TablesCreated st in
      if Z.eqb m 0 then poll fuel' TablesCreated (body st) else Some st
  end.

(** The whole cell after [start_crawler]: the loop, then the assertion. *)
Definition wait_for_crawler (fuel : nat) (TablesCreated : nat -> Z)
  : option (result state) :=
  match poll fuel TablesCreated init with
  | None => None
  | Some st =>
      let '(m, st) := get_metric TablesCreated st in
      if Z.eqb m 1 then Some (Ok st) else Some (Raise AssertionError)
  end.

(** The state in which the loop stops when the first non-zero report is
    the one of call [n]. *)
Definition stopped_after (n : nat) : state :=
  {| calls := S n;
     printed := replicate n "RUNNING";
     slept := 15 * Z.of_nat n |}.

End Crawler.

(** ** Notebook 03: the hyperparameters of the manual training run *)

Module Training.

Definition hyperparameters : list (string * string) :=
  [ ("max_depth", "3");
    ("eta", "0.1");
    ("gamma", "0");
    ("min_child_weight", "1");
    ("silent", "0");
    ("objective", "binary:logistic");
    ("num_round", "10");
    ("scale_pos_weight", "6.32");
    ("eval_metric", "auc") ].

End Training.

(** ** Notebook 07: the pipeline definition

    The pipeline is built from [ParameterString]/[ParameterInteger]
    objects, a [ProcessingStep], a [TrainingStep] and two [RegisterModel]
    steps, and started with [pipeline.start(parameters={...})].  The steps
    are held with the arguments that are parameters, properties of other
    steps, or paths; what the notebook obtains from the SDK while it builds
    the definition (the role, the image URIs, the session) and the content
    types of the registered models are left out. *)

Module Workflow.

Inductive value : Type :=
| VStr (s : string)
| VInt (z : Z).

(** [ParameterString(name=..., default_value=...)] and
    [ParameterInteger(...)]. *)
Record parameter : Type :=
  { name : string; default_value : value }.

(** A property of a step that other steps refer to. *)
Inductive property : Type :=
| ProcessingOutputS3Uri (output_name : string)
    (* .properties.ProcessingOutputConfig.Outputs[output_name].S3Output.S3Uri *)
| S3ModelArtifacts.
    (* .properties.ModelArtifacts.S3ModelArtifacts *)

(** What the notebook passes as an argument of a step: a Python literal, a
    pipeline parameter object, or a property of another step. *)
Inductive arg : Type :=
| Literal (v : value)
| Param (p : parameter)
| PropertyOf (step_name : string) (prop : property).

Record ProcessingInput : Type :=
  { input_name : string; input_source : arg; input_destination : string }.

Record ProcessingOutput : Type :=
  { output_name : string; output_source : string; output_destination : arg }.

Record TrainingInput : Type :=
  { s3_data : arg; content_type : string }.

Record Estimator : Type :=
  { entry_point : string;
    source_dir : string;
    output_path_arg : arg;
    code_location : string;
    hyperparameters : list (string * arg);
    instance_type : arg;
    instance_count : arg;
    framework_version : string;
    py_version : string }.

Inductive step : Type :=
| ProcessingStep (step_name : string) (code : string)
    (processor_instance_type processor_instance_count : arg)
    (inputs : list ProcessingInput) (outputs : list ProcessingOutput)
    (job_arguments : list arg)
| TrainingStep (step_name : string) (estimator : Estimator)
    (inputs : list (string * TrainingInput))
| RegisterModel (step_name : string) (entry_point source_dir : string)
    (model_data : arg) (inference_instances : list arg)
    (transform_instances : list string)
    (model_package_group_name : string) (approval_status : arg)
| RepackModelStep (step_name : string) (entry_point source_dir : string)
    (model_data : arg).
    (* the step the SDK puts before a RegisterModel that has an entry point *)

Definition step_name_of (s : step) : string :=
  match s with
  | ProcessingStep n _ _ _ _ _ _ => n
  | TrainingStep n _ _ => n
  | RegisterModel n _ _ _ _ _ _ _ => n
  | RepackModelStep n _ _ _ => n
  end.

Section Pipeline.
Variable bucket_name : string.

Definition prefix : string := "endtoendmlsm".

(** ['s3://{0}/{1}/...'.format(bucket_name, prefix)] *)
Definition s3_uri (rest : string) : string :=
  "s3://" +:+ bucket_name +:+ "/" +:+ prefix +:+ rest.

Definition raw_data_path_param :=
  {| name := "raw_data_path"; default_value := VStr (s3_uri "/data/raw/") |}.
Definition train_data_path_param :=
  {| name := "train_data_path";
     default_value := VStr (s3_uri "/data/preprocessed/train/") |}.
Definition val_data_path_param :=
  {| name := "val_data_path";
     default_value := VStr (s3_uri "/data/preprocessed/val/") |}.
Definition model_path_param :=
  {| name := "model_path"; default_value := VStr (s3_uri "/output/sklearn/") |}.
Definition processing_instance_type_param :=
  {| name := "processing_instance_type"; default_value := VStr "ml.m5.large" |}.
Definition processing_instance_count_param :=
  {| name := "processing_instance_count"; default_value := VInt 1 |}.
Definition train_test_split_ratio_param :=
  {| name := "train_test_split_ratio"; default_value := VStr "0.2" |}.

Definition max_depth_param :=
  {| name := "max_depth"; default_value := VStr "3" |}.
Definition eta_param := {| name := "eta"; default_value := VStr "0.1" |}.
Definition gamma_param := {| name := "gamma"; default_value := VStr "0" |}.
Definition min_child_weight_param :=
  {| name := "min_child_weight"; default_value := VStr "1" |}.
Definition objective_param :=
  {| name := "objective"; default_value := VStr "binary:logistic" |}.
Definition num_round_param :=
  {| name := "num_round"; default_value := VStr "10" |}.
Definition scale_pos_weight_param :=
  {| name := "scale_pos_weight"; default_value := VStr "6.32" |}.
Definition eval_metric_param :=
  {| name := "eval_metric"; default_value := VStr "auc" |}.

Definition training_instance_type_param :=
  {| name := "training_instance_type"; default_value := VStr "ml.m5.xlarge" |}.
Definition training_instance_count_param :=
  {| name := "training_instance_count"; default_value := VInt 1 |}.
Definition output_path_param :=
  {| name := "output_path"; default_value := VStr (s3_uri "/output/") |}.
Definition deploy_instance_type_param :=
  {| name := "deploy_instance_type"; default_value := VStr "ml.m5.2xlarge" |}.
Definition model_approval_status_param :=
  {| name := "model_approval_status";
     default_value := VStr "PendingManualApproval" |}.

Definition processing_step : step :=
  ProcessingStep "Processing"
    "../02_data_exploration_and_feature_eng/source_dir/preprocessor.py"
    (Param processing_instance_type_param)
    (Param processing_instance_count_param)
    [ {| input_name := "raw_data";
         input_source := Param raw_data_path_param;
         input_destination := "/opt/ml/processing/input" |} ]
    [ {| output_name := "train_data";
         output_source := "/opt/ml/processing/train";
         output_destination := Param train_data_path_param |};
      {| output_name := "val_data";
         output_source := "/opt/ml/processing/val";
         output_destination := Param val_data_path_param |};
      {| output_name := "model";
         output_source := "/opt/ml/processing/model";
         output_destination := Param model_path_param |} ]
    [ Literal (VStr "--train-test-split-ratio");
      Param train_test_split_ratio_param ].

Definition estimator : Estimator :=
  {| entry_point := "training.py";
     source_dir := "../03_train_model/source_dir/";
     output_path_arg := Param output_path_param;
     code_location := s3_uri "/code";
     hyperparameters :=
       [ ("max_depth", Param max_depth_param);
         ("eta", Param eta_param);
         ("gamma", Param gamma_param);
         ("min_child_weight", Param min_child_weight_param);
         ("silent", Literal (VInt 0));
         ("objective", Param objective_param);
         ("num_round", Param num_round_param);
         ("scale_pos_weight", Param scale_pos_weight_param);
         ("eval_metric", Param eval_metric_param) ];
     instance_type := Param training_instance_type_param;
     instance_count := Param training_instance_count_param;
     framework_version := "0.90-2";
     py_version := "py3" |}.

Definition training_step : step :=
  TrainingStep "Training" estimator
    [ ("train",
       {| s3_data := PropertyOf "Processing" (ProcessingOutputS3Uri "train_data");
          content_type := "text/csv" |});
      ("validation",
       {| s3_data := PropertyOf "Processing" (ProcessingOutputS3Uri "val_data");
          content_type := "text/csv" |}) ].

Definition register_featurizer_step : step :=
  RegisterModel "RegisterFeaturizerModel"
    "inference.py" "../04_deploy_model/sklearn_source_dir"
    (PropertyOf "Processing" (ProcessingOutputS3Uri "model"))
    [Param deploy_instance_type_param] ["ml.c5.4xlarge"]
    "end-to-end-ml-sagemaker-sklearn-featurizer"
    (Param model_approval_status_param).

Definition register_xgboost_step : step :=
  RegisterModel "RegisterXGBoostModel"
    "inference.py" "../04_deploy_model/xgboost_source_dir"
    (PropertyOf "Training" S3ModelArtifacts)
    [Param deploy_instance_type_param] ["ml.c5.4xlarge"]
    "end-to-end-ml-sagemaker-xgboost"
    (Param model_approval_status_param).

(** [Pipeline(name=..., parameters=[...], steps=[...])] *)
Definition pipeline_name : string := "end-to-end-ml-sagemaker-pipeline".

Definition parameters : list parameter :=
  [ raw_data_path_param; train_data_path_param; val_data_path_param;
    model_path_param; processing_instance_type_param;
    processing_instance_count_param; train_test_split_ratio_param;
    max_depth_param; eta_param; gamma_param; min_child_weight_param;
    objective_param; num_round_param; scale_pos_weight_param;
    eval_metric_param; training_instance_type_param;
    training_instance_count_param; output_path_param;
    deploy_instance_type_param; model_approval_status_param ].

(** The [steps=[...]] argument of [Pipeline]: the two steps and the two
    [RegisterModel] step collections, as the notebook lists them. *)
Definition steps : list step :=
  [ processing_step; training_step;
    register_featurizer_step; register_xgboost_step ].

(** The steps of the definition that [pipeline.upsert] sends.  The notebook
    notes that "the repack model steps will be automatically added by SM ...
    when custom inference logic is required": a [RegisterModel] built with
    an [entry_point] stands for two steps, a repack step that takes the
    [model_data] given to [RegisterModel], and the registration itself,
    which takes the model artifacts of the repack step.  The names that the
    SDK gives to the two steps of the collection named [n] are
    [repack_name n] and [register_name n]; they depend on the SDK version
    and are left open. *)
Definition expand (repack_name register_name : string -> string) (s : step)
  : list step :=
  match s with
  | RegisterModel n ep sd md insts tinsts group st =>
      [ RepackModelStep (repack_name n) ep sd md;
        RegisterModel (register_name n) ep sd
          (PropertyOf (repack_name n) S3ModelArtifacts)
          insts tinsts group st ]
  | _ => [s]
  end.

Definition definition (repack_name register_name : string -> string)
  : list step :=
  flat_map (expand repack_name register_name) steps.

(** [pipeline.start(parameters={'train_test_split_ratio': '0.2'})] *)
Definition notebook_start_parameters : gmap string value :=
  {[ "train_test_split_ratio" := VStr "0.2" ]}.

End Pipeline.

(** *** The pipeline service

    The service that runs the definition is outside the repository.  Its
    behaviour is taken as the notebook describes it: parameters "vary the
    values injected and used in pipeline executions ... without having to
    modify the definition" (a value given at start replaces the default),
    and the definition is a DAG in which a step that refers to a property of
    another step runs after it. *)

(** Value of a parameter in an execution started with [given]. *)
Definition parameter_value (given : gmap string value) (p : parameter) : value :=
  default (default_value p) (given !! name p).

(** Starting an execution: the names given must be parameters of the
    pipeline. *)
Definition start (params : list parameter) (given : gmap string value)
  : result (gmap string value) :=
  if forallb (fun k => bool_decide (k ∈ map name params))
             (map fst (map_to_list given))
  then Ok given else Raise ClientError.

Definition outputs_of (s : step) : list ProcessingOutput :=
  match s with
  | ProcessingStep _ _ _ _ _ outs _ => outs
  | _ => []
  end.

Definition find_step (steps : list step) (n : string) : option step :=
  List.find (fun s => String.eqb (step_name_of s) n) steps.

(** Where a processing step writes the output named [o]: the destination
    given in its [ProcessingOutput]. *)
Definition processing_output_location (given : gmap string value) (s : step)
  (o : string) : option value :=
  out ← List.find (fun out => String.eqb (output_name out) o) (outputs_of s);
  match output_destination out with
  | Literal v => Some v
  | Param p => Some (parameter_value given p)
  | PropertyOf _ _ => None
  end.

(** Value of an argument in an execution; [None] for a property that only
    the job run knows (the model artifacts of a training job). *)
Definition arg_value (steps : list step) (given : gmap string value) (a : arg)
  : option value :=
  match a with
  | Literal v => Some v
  | Param p => Some (parameter_value given p)
  | PropertyOf n (ProcessingOutputS3Uri o) =>
      s ← find_step steps n; processing_output_location given s o
  | PropertyOf _ S3ModelArtifacts => None
  end.

(** The hyperparameters and the input channels that the training job of an
    execution is submitted with. *)
Definition training_hyperparameters (steps : list step)
  (given : gmap string value) (s : step) : list (string * option value) :=
  match s with
  | TrainingStep _ est _ =>
      map (fun '(k, a) => (k, arg_value steps given a)) (hyperparameters est)
  | _ => []
  end.


(** The arguments of a step, and the steps whose properties they use. *)
Definition args_of (s : step) : list arg :=
  match s with
  | ProcessingStep _ _ it ic ins outs jargs =>
      it :: ic :: map input_source ins ++ map output_destination outs ++ jargs
  | TrainingStep _ est ins =>
      output_path_arg est :: instance_type est :: instance_count est
      :: map snd (hyperparameters est) ++ map (fun i => s3_data (snd i)) ins
  | RegisterModel _ _ _ md insts _ _ st => md :: st :: insts
  | RepackModelStep _ _ _ md => [md]
  end.

Definition depends_on (s : step) : list string :=
  flat_map (fun a => match a with PropertyOf n _ => [n] | _ => [] end)
           (args_of s).

(** Executions as sequences of step events. *)
Inductive event : Type :=
| StepStarted (n : string)
| StepCompleted (n : string).

(** A sequence of events is one the service can produce for the steps
    [steps] of a definition: every started step is a step of the
    definition, is started once, and only after the steps it depends on
    have completed; a step completes once, after it started. *)
Fixpoint schedule_ok (steps : list step) (started completed : list string)
  (tr : list event) : bool :=
  match tr with
  | [] => true
  | StepStarted n :: tr' =>
      match find_step steps n with
      | None => false
      | Some s =>
          negb (bool_decide (n ∈ started))
          && forallb (fun d => bool_decide (d ∈ completed)) (depends_on s)
          && schedule_ok steps (n :: started) completed tr'
      end
  | StepCompleted n :: tr' =>
      bool_decide (n ∈ started)
      && negb (bool_decide (n ∈ completed))
      && schedule_ok steps started (n :: completed) tr'
  end.

Definition execution_trace (steps : list step) (tr : list event) : bool :=
  schedule_ok steps [] [] tr.

(** The names the SDK of the notebook's time gives: the repack step is named
    after its collection, the registration keeps the collection's name. *)
Definition repack_suffix (n : string) : string := n +:+ "RepackModel".
Definition same_name (n : string) : string := n.


(** The hyperparameters that are pipeline parameters. *)
Definition hyperparameter_names : list string :=
  [ "max_depth"; "eta"; "gamma"; "min_child_weight"; "objective";
    "num_round"; "scale_pos_weight"; "eval_metric" ].

End Workflow.

(** ** Notebook 04: the baseline files in storage

    <<
    statistics_path = baseline_results_path + '/statistics.json'
    constraints_path = baseline_results_path + '/constraints.json'

    !aws s3 cp {statistics_path} baseline/
    !aws s3 cp {constraints_path} baseline/
    >>
    then the reordering cell for [statistics.json],
    [!aws s3 cp baseline/statistics.json {statistics_path}], the reordering
    cell for [constraints.json],
    [!aws s3 cp baseline/constraints.json {constraints_path}], and later
    <<
    boto3.Session().resource('s3').Bucket(bucket_name).Object(monitoring_code_prefix + '/postprocessor.py').upload_file('postprocessor.py')
    >> *)

Module Storage.

(** JSON values as [json.load] returns them; a dictionary keeps the order
    of its keys. *)
#[local] Unset Elimination Schemes.
Inductive json : Type :=
| JNull
| JBool (b : bool)
| JNum (literal : string)
| JStr (s : string)
| JList (items : list json)
| JObj (fields : list (string * json)).
#[local] Set Elimination Schemes.

(** [d[k]] and the in-place change of the value held under [k]. *)
Fixpoint lookup_field (k : string) (fields : list (string * json))
  : option json :=
  match fields with
  | [] => None
  | (k', v) :: fields' => if String.eqb k' k then Some v else lookup_field k fields'
  end.

Fixpoint update_field (k : string) (v : json) (fields : list (string * json))
  : list (string * json) :=
  match fields with
  | [] => []
  | (k', v') :: fields' =>
      if String.eqb k' k then (k', v) :: fields'
      else (k', v') :: update_field k v fields'
  end.

(** The two statements between [json.load] and [json.dump]:
    <<
    loaded['features'].insert(0, loaded['features'][-1])
    del loaded['features'][-1]
    >> *)
Definition switch_target (loaded : json) : result json :=
  match loaded with
  | JObj fields =>
      match lookup_field "features" fields with
      | None => Raise KeyError
      | Some (JList features) =>
          features <- Baseline.reorder features ;;
          Ok (JObj (update_field "features" (JList features) fields))
      | Some _ => Raise AttributeError
      end
  | _ => Raise TypeError
  end.

(** A stored object or a local file: JSON text, held as the value it
    parses to, or anything else. *)
Inductive object : Type :=
| Json (j : json)
| Blob (content : string).

Record world : Type :=
  { s3 : gmap string object;      (* objects by URI *)
    files : gmap string object;   (* files of the notebook instance *)
    s3_puts : list string }.      (* URIs written so far, in order *)

(** [!aws s3 cp <uri> <dir>/]: an IPython shell line never raises; when the
    object is missing the command fails and nothing is copied. *)
Definition s3_cp_download (uri file : string) (w : world) : world :=
  match s3 w !! uri with
  | Some o => {| s3 := s3 w; files := <[file := o]> (files w); s3_puts := s3_puts w |}
  | None => w
  end.

(** [!aws s3 cp <file> <uri>] *)
Definition s3_cp_upload (file uri : string) (w : world) : world :=
  match files w !! file with
  | Some o =>
      {| s3 := <[uri := o]> (s3 w); files := files w;
         s3_puts := s3_puts w ++ [uri] |}
  | None => w
  end.

(** [....Object(key).upload_file(file)] *)
Definition upload_file (file uri : string) (w : world) : result world :=
  match files w !! file with
  | Some o =>
      Ok {| s3 := <[uri := o]> (s3 w); files := files w;
            s3_puts := s3_puts w ++ [uri] |}
  | None => Raise FileNotFoundError
  end.

(** The reordering cell on the file [file]. *)
Definition reorder_file (file : string) (w : world) : result world :=
  match files w !! file with
  | None => Raise FileNotFoundError
  | Some (Blob _) => Raise ValueError
  | Some (Json loaded) =>
      loaded <- switch_target loaded ;;
      Ok {| s3 := s3 w; files := <[file := Json loaded]> (files w);
            s3_puts := s3_puts w |}
  end.

Section Paths.
Variable bucket_name : string.

Definition prefix : string := "endtoendmlsm".

Definition baseline_results_path : string :=
  "s3://" +:+ bucket_name +:+ "/" +:+ prefix +:+ "/monitoring/baselining/results".
Definition statistics_path : string := baseline_results_path +:+ "/statistics.json".
Definition constraints_path : string := baseline_results_path +:+ "/constraints.json".
Definition postprocessor_path : string :=
  "s3://" +:+ bucket_name +:+ "/" +:+ prefix +:+ "/monitoring/code/postprocessor.py".

(** Where the earlier stages left their artifacts: the raw dataset
    (notebook 02, [s3.Bucket(bucket_name).copy]) and the fitted encoder
    (notebook 04, [sklearn_model_path]). *)
Definition dataset_path : string :=
  "s3://" +:+ bucket_name +:+ "/" +:+ prefix +:+ "/"
  +:+ "data/raw/windturbine_raw_data_header.csv".
Definition sklearn_model_path : string :=
  "s3://" +:+ bucket_name +:+ "/" +:+ prefix +:+ "/output/sklearn/model.tar.gz".

(** The cells that write to storage after the baselining job, in notebook
    order; the run stops at the first cell that raises. *)
Definition rewrite_baseline (w : world) : result world :=
  let w := s3_cp_download statistics_path "baseline/statistics.json" w in
  let w := s3_cp_download constraints_path "baseline/constraints.json" w in
  w <- reorder_file "baseline/statistics.json" w ;;
  let w := s3_cp_upload "baseline/statistics.json" statistics_path w in
  w <- reorder_file "baseline/constraints.json" w ;;
  let w := s3_cp_upload "baseline/constraints.json" constraints_path w in
  Ok w.

Definition later_writes (w : world) : result world :=
  w <- rewrite_baseline w ;;
  upload_file "postprocessor.py" postprocessor_path w.

End Paths.

(** A store right after the baselining job, with two features in each
    baseline file. *)
Definition two_features (extra : string) : json :=
  JObj [ ("version", JNum "0");
         ("features",
          JList [ JObj [("name", JStr "wind_speed"); (extra, JStr "Fractional")];
                  JObj [("name", JStr "breakdown"); (extra, JStr "String")] ]) ].

Definition after_baselining : world :=
  {| s3 := <[statistics_path "bucket" := Json (two_features "inferred_type")]>
           (<[constraints_path "bucket" := Json (two_features "inferred_type")]>
           (<[dataset_path "bucket" := Blob "turbine_id,turbine_type,..."]>
           (<[sklearn_model_path "bucket" := Blob "model.tar.gz"]> ∅)));
     files := {[ "postprocessor.py" := Blob "def postprocess_handler(): ..." ]};
     s3_puts := [] |}.

End Storage.

(** ** The statements of the code cells

    Each code cell is held as its statements.  A statement carries the line
    it starts at in the notebook file and the names of the functions and
    methods it calls (arguments left out, a call's arguments before the call
    itself).  Lines that start with [!] are IPython shell lines, lines that
    start with [%] IPython magics. *)

Module Notebook.

Inductive kind : Type :=
| Import | Assign | Expr | Del | Assert | Return | Shell | Magic.

#[local] Unset Elimination Schemes.
Inductive stmt : Type :=
| Simple (line : nat) (k : kind) (calls : list string)
| Def (line : nat) (name : string) (body : list stmt)
| If (line : nat) (calls : list string) (body : list stmt)
| While (line : nat) (calls : list string) (body : list stmt)
| For (line : nat) (calls : list string) (body : list stmt)
| With (line : nat) (calls : list string) (body : list stmt)
| Try (line : nat) (body : list stmt) (handler : list stmt).
    (* try: body / except: handler, the only form the notebooks use *)
#[local] Set Elimination Schemes.

Record cell : Type := { first_line : nat; body : list stmt }.

(** Data exploration, preprocessing and feature engineering. *)
Definition notebook_02 : list cell :=
  [ {| first_line := 27;
       body :=
        [Simple 27 Import [];
         Simple 28 Import [];
         Simple 29 Import [];
         Simple 32 Assign [];
         Def 34 "versiontuple"
           [Simple 35 Return ["v.split"; "map"; "tuple"]];
         If 37 ["versiontuple"; "versiontuple"]
           [Simple 38 Shell [];
            Simple 39 Expr
              [ "IPython.Application.instance";
                "IPython.Application.instance().kernel.do_shutdown" ]]] |};
    {| first_line := 48;
       body :=
        [Simple 48 Import [];
         Simple 49 Expr ["print"]] |};
    {| first_line := 58;
       body :=
        [Simple 58 Import [];
         Simple 59 Import [];
         Simple 61 Assign ["sagemaker.get_execution_role"];
         Simple 62 Assign ["boto3.Session"];
         Simple 63 Assign ["sagemaker.Session"];
         Simple 64 Assign ["sagemaker_session.default_bucket"];
         Simple 65 Assign [];
         Simple 67 Expr ["print"];
         Simple 68 Expr ["print"];
         Simple 69 Expr ["print"]] |};
    {| first_line := 85;
       body :=
        [Simple 85 Import [];
         Simple 87 Assign ["boto3.resource"];
         Simple 89 Assign [];
         Simple 90 Assign ["''.format"];
         Simple 95 Expr ["s3.Bucket"; "''.format"; "s3.Bucket().copy"]] |};
    {| first_line := 115;
       body :=
        [Simple 115 Import [];
         Simple 116 Expr ["cleanup_glue_resources"]] |};
    {| first_line := 125;
       body :=
        [Simple 125 Assign ["boto3.client"];
         Simple 127 Assign ["glue_client.create_database"];
         Simple 128 Assign ["glue_client.get_database"];
         Simple 129 Expr [];
         Simple 130 Assert []] |};
    {| first_line := 147;
       body :=
        [Simple 147 Assign ["''.format"; "glue_client.create_crawler"]] |};
    {| first_line := 168;
       body :=
        [Simple 168 Expr ["glue_client.start_crawler"];
         While 170 ["glue_client.get_crawler_metrics"]
           [Simple 171 Expr ["print"];
            Simple 172 Expr ["time.sleep"]];
         Simple 174 Assert ["glue_client.get_crawler_metrics"]] |};
    {| first_line := 193;
       body :=
        [Simple 193 Assign ["glue_client.get_table"];
         Simple 194 Expr []] |};
    {| first_line := 210;
       body :=
        [Simple 212 Del [];
         Simple 214 Assign [];
         Simple 226 Assign [];
         Simple 227 Expr ["updated_table.pop"];
         Simple 228 Expr ["updated_table.pop"];
         Simple 229 Expr ["updated_table.pop"];
         Simple 230 Expr ["updated_table.pop"];
         Simple 231 Expr ["updated_table.pop"];
         Simple 233 Expr ["glue_client.update_table"]] |};
    {| first_line := 261;
       body :=
        [Simple 261 Shell [];
         Simple 262 Shell []] |};
    {| first_line := 271;
       body :=
        [Simple 271 Import [];
         Simple 272 Import [];
         Simple 273 Import [];
         Simple 275 Assign ["''.format"; "connect"; "connect().cursor"];
         Simple 278 Expr ["athena_cursor.execute"];
         Simple 279 Expr ["pd.read_csv"]] |};
    {| first_line := 295;
       body :=
        [Simple 295 Expr ["athena_cursor.execute"];
         Simple 296 Expr ["pd.read_csv"]] |};
    {| first_line := 312;
       body :=
        [Simple 312 Expr ["athena_cursor.execute"];
         Simple 314 Expr ["pd.read_csv"]] |};
    {| first_line := 323;
       body :=
        [Simple 323 Expr ["athena_cursor.execute"];
         Simple 324 Assign ["pd.read_csv"];
         Simple 326 Magic [];
         Simple 327 Import [];
         Simple 329 Expr ["plt.bar"]] |};
    {| first_line := 345;
       body :=
        [Simple 345 Expr ["athena_cursor.execute"];
         Simple 346 Expr ["pd.read_csv"]] |};
    {| first_line := 355;
       body :=
        [Simple 355 Expr ["athena_cursor.execute"];
         Simple 356 Expr ["pd.read_csv"]] |};
    {| first_line := 405;
       body :=
        [Simple 405 Shell []] |};
    {| first_line := 421;
       body :=
        [Simple 421 Import [];
         Simple 422 Import [];
         Simple 424 Assign ["time.time"; "int"; "str"; "''.format"];
         Simple 425 Assign ["experiment.Experiment.create"];
         Simple 428 Expr ["print"]] |};
    {| first_line := 444;
       body :=
        [Simple 444 Assign ["time.time"; "int"; "str"; "''.format"];
         Simple 445 Assign ["current_experiment.create_trial"]] |};
    {| first_line := 461;
       body :=
        [Simple 461 Magic [];
         Simple 462 Magic []] |};
    {| first_line := 490;
       body :=
        [Simple 490 Shell []] |};
    {| first_line := 506;
       body :=
        [Simple 506 Import [];
         Simple 507 Import [];
         Simple 509 Assign ["SKLearnProcessor"]] |};
    {| first_line := 531;
       body :=
        [Simple 531 Assign ["''.format"];
         Simple 532 Assign ["''.format"];
         Simple 533 Assign ["''.format"];
         Simple 534 Assign ["''.format"];
         Simple 537 Assign [];
         Simple 543 Expr
           [ "ProcessingInput";
             "ProcessingOutput";
             "ProcessingOutput";
             "ProcessingOutput";
             "sklearn_processor.run" ]] |};
    {| first_line := 572;
       body :=
        [Simple 572 Assign [];
         Simple 573 Assign ["''.format"];
         Simple 575 Expr ["sagemaker_session.download_data"]] |};
    {| first_line := 584;
       body :=
        [Simple 584 Import [];
         Simple 585 Assign ["pd.read_csv"];
         Simple 587 Expr ["df.head"]] |};
    {| first_line := 613;
       body :=
        [Simple 613 Import [];
         Simple 615 Assign ["ExperimentAnalytics"];
         Simple 616 Expr ["analytics.dataframe"]] |} ].

(** Model training (second document of the deploy-and-monitor file). *)
Definition notebook_03 : list cell :=
  [ {| first_line := 939;
       body :=
        [Simple 939 Import [];
         Simple 940 Import [];
         Simple 941 Import [];
         Simple 944 Assign [];
         Def 946 "versiontuple"
           [Simple 947 Return ["v.split"; "map"; "tuple"]];
         If 949 ["versiontuple"; "versiontuple"]
           [Simple 950 Shell [];
            Simple 951 Expr
              [ "IPython.Application.instance";
                "IPython.Application.instance().kernel.do_shutdown" ]]] |};
    {| first_line := 960;
       body :=
        [Simple 960 Import [];
         Simple 961 Expr ["print"]] |};
    {| first_line := 970;
       body :=
        [Simple 970 Import [];
         Simple 972 Assign ["sagemaker.get_execution_role"];
         Simple 973 Assign ["boto3.Session"];
         Simple 974 Assign ["sagemaker.Session"];
         Simple 975 Assign ["sagemaker_session.default_bucket"];
         Simple 976 Assign [];
         Simple 978 Expr ["print"];
         Simple 979 Expr ["print"];
         Simple 980 Expr ["print"]] |};
    {| first_line := 989;
       body :=
        [Simple 989 Magic [];
         Simple 990 Magic [];
         Simple 992 Expr ["print"];
         Simple 993 Expr ["print"]] |};
    {| first_line := 1022;
       body :=
        [Simple 1022 Shell []] |};
    {| first_line := 1038;
       body :=
        [Simple 1038 Import [];
         Simple 1040 Assign [];
         Simple 1052 Assign [];
         Simple 1053 Assign [];
         Simple 1054 Assign ["''.format"];
         Simple 1055 Assign ["''.format"];
         Simple 1057 Assign ["XGBoost"]] |};
    {| first_line := 1080;
       body :=
        [Simple 1081 Assign [];
         Simple 1087 Assign ["''.format"; "sagemaker.TrainingInput"];
         Simple 1089 Assign ["''.format"; "sagemaker.TrainingInput"];
         Simple 1092 Expr ["estimator.fit"]] |};
    {| first_line := 1111;
       body :=
        [Simple 1111 Import [];
         Simple 1113 Assign ["ExperimentAnalytics"];
         Simple 1114 Expr ["analytics.dataframe"]] |} ].

(** Model deployment and monitoring. *)
Definition notebook_04 : list cell :=
  [ {| first_line := 30;
       body :=
        [Simple 30 Import [];
         Simple 31 Import [];
         Simple 32 Import [];
         Simple 35 Assign [];
         Def 37 "versiontuple"
           [Simple 38 Return ["v.split"; "map"; "tuple"]];
         If 40 ["versiontuple"; "versiontuple"]
           [Simple 41 Shell [];
            Simple 42 Expr
              [ "IPython.Application.instance";
                "IPython.Application.instance().kernel.do_shutdown" ]]] |};
    {| first_line := 51;
       body :=
        [Simple 51 Import [];
         Simple 52 Expr ["print"]] |};
    {| first_line := 61;
       body :=
        [Simple 61 Import [];
         Simple 63 Assign ["sagemaker.get_execution_role"];
         Simple 64 Assign ["boto3.Session"];
         Simple 65 Assign ["sagemaker.Session"];
         Simple 66 Assign ["sagemaker_session.default_bucket"];
         Simple 67 Assign [];
         Simple 69 Expr ["print"];
         Simple 70 Expr ["print"];
         Simple 71 Expr ["print"]] |};
    {| first_line := 98;
       body :=
        [Simple 98 Import [];
         Simple 101 Assign ["''.format"];
         Simple 104 Assign [];
         Simple 105 Assign ["get_latest_training_job_name"];
         Simple 106 Assign ["get_training_job_s3_model_artifacts"];
         Simple 108 Expr ["print"];
         Simple 109 Expr ["print"]] |};
    {| first_line := 139;
       body :=
        [Simple 139 Shell []] |};
    {| first_line := 155;
       body :=
        [Simple 155 Import [];
         Simple 156 Import [];
         Simple 158 Assign ["''.format"];
         Simple 160 Assign ["time.time"; "int"; "str"; "''.format"; "SKLearnModel"]] |};
    {| first_line := 196;
       body :=
        [Simple 196 Shell []] |};
    {| first_line := 212;
       body :=
        [Simple 212 Import [];
         Simple 213 Import [];
         Simple 215 Assign ["''.format"];
         Simple 217 Assign ["time.time"; "int"; "str"; "''.format"; "XGBoostModel"]] |};
    {| first_line := 255;
       body :=
        [Simple 255 Import [];
         Simple 256 Import [];
         Simple 257 Import [];
         Simple 258 Import [];
         Simple 259 Import [];
         Simple 261 Assign ["''.format"];
         Simple 262 Expr ["print"];
         Simple 264 Assign ["time.time"; "int"; "str"; "''.format"];
         Simple 266 Assign ["PipelineModel"];
         Simple 274 Assign ["time.time"; "int"; "str"; "''.format"];
         Simple 275 Expr ["print"];
         Simple 277 Expr ["DataCaptureConfig"; "pipeline_model.deploy"]] |};
    {| first_line := 313;
       body :=
        [Simple 313 Import [];
         Simple 314 Import [];
         Simple 315 Import [];
         Simple 317 Assign ["CSVSerializer"; "CSVDeserializer"; "Predictor"];
         Simple 323 Assign [];
         Simple 324 Expr ["predictor.predict"; "print"]] |};
    {| first_line := 344;
       body :=
        [Simple 344 Assign ["boto3.Session"; "boto3.Session().client"];
         Simple 345 Assign ["''.format"];
         Simple 347 Assign ["s3_client.list_objects"];
         Simple 348 Assign ["capture_file.get"; "''.format"; "result.get"];
         Simple 350 Expr ["print"];
         Simple 351 Expr ["''.join"; "print"]] |};
    {| first_line := 367;
       body :=
        [Simple 367 Shell [];
         Simple 368 Shell []] |};
    {| first_line := 384;
       body :=
        [Simple 384 Import [];
         With 385 ["open"]
           [Simple 386 Assign ["myfile.read"]];
         Simple 388 Expr ["data.split"; "json.loads"; "json.dumps"; "print"]] |};
    {| first_line := 409;
       body :=
        [Simple 409 Assign ["''.format"];
         Simple 410 Assign ["''.format"];
         Simple 412 Expr ["print"];
         Simple 413 Expr ["print"]] |};
    {| first_line := 429;
       body :=
        [Simple 429 Import [];
         Simple 430 Import [];
         Simple 432 Assign ["DefaultModelMonitor"]] |};
    {| first_line := 447;
       body :=
        [Simple 447 Expr ["DatasetFormat.csv"; "my_default_monitor.suggest_baseline"]] |};
    {| first_line := 470;
       body :=
        [Simple 470 Import [];
         Simple 472 Assign [];
         Simple 473 Assign ["baseline_job.baseline_statistics"; "pd.json_normalize"];
         Simple 474 Expr []] |};
    {| first_line := 490;
       body :=
        [Simple 490 Assign ["baseline_job.suggested_constraints"; "pd.json_normalize"];
         Simple 491 Expr []] |};
    {| first_line := 510;
       body :=
        [Simple 510 Assign [];
         Simple 511 Assign [];
         Simple 513 Shell [];
         Simple 514 Shell []] |};
    {| first_line := 523;
       body :=
        [Simple 523 Import [];
         With 525 ["open"]
           [Simple 526 Assign ["json.load"]];
         Simple 528 Expr ["loaded_statistics[].insert"];
         Simple 529 Del [];
         With 531 ["open"]
           [Simple 532 Expr ["json.dump"]]] |};
    {| first_line := 541;
       body :=
        [Simple 541 Shell []] |};
    {| first_line := 550;
       body :=
        [With 550 ["open"]
           [Simple 551 Assign ["json.load"]];
         Simple 553 Expr ["loaded_constraints[].insert"];
         Simple 554 Del [];
         With 556 ["open"]
           [Simple 557 Expr ["json.dump"]]] |};
    {| first_line := 566;
       body :=
        [Simple 566 Shell []] |};
    {| first_line := 587;
       body :=
        [Simple 587 Import [];
         Simple 588 Import [];
         Simple 589 Assign ["np.random.normal"];
         Simple 595 Assign [];
         For 597 ["range"]
           [Simple 598 Expr ["str"; "artificial_values.format"; "predictor.predict"];
            Simple 599 Expr ["time.sleep"];
            If 600 []
              [Simple 601 Expr ["''.format"; "print"]]]] |};
    {| first_line := 623;
       body :=
        [Simple 623 Shell []] |};
    {| first_line := 632;
       body :=
        [Simple 632 Import [];
         Simple 634 Assign ["''.format"];
         Simple 635 Expr ["print"];
         Simple 637 Expr
           [ "boto3.Session";
             "boto3.Session().resource";
             "boto3.Session().resource().Bucket";
             "boto3.Session().resource().Bucket().Object";
             "boto3.Session().resource().Bucket().Object().upload_file" ];
         Simple 638 Assign ["''.format"];
         Simple 639 Expr ["print"];
         Simple 641 Assign ["''.format"];
         Simple 642 Expr ["print"]] |};
    {| first_line := 658;
       body :=
        [Simple 658 Import [];
         Simple 659 Import [];
         Simple 661 Assign [];
         Simple 663 Assign ["gmtime"; "strftime"];
         Simple 664 Expr
           [ "my_default_monitor.baseline_statistics";
             "my_default_monitor.suggested_constraints";
             "CronExpressionGenerator.hourly";
             "my_default_monitor.create_monitoring_schedule" ]] |};
    {| first_line := 689;
       body :=
        [Simple 689 Assign ["my_default_monitor.describe_schedule"];
         Simple 690 Expr []] |};
    {| first_line := 709;
       body :=
        [Simple 710 Expr ["my_default_monitor.delete_monitoring_schedule"]] |};
    {| first_line := 728;
       body :=
        [Simple 728 Assign ["s3_client.list_objects"];
         Simple 729 Assign ["capture_file.get"; "''.format"; "result.get"];
         Simple 731 Expr ["print"];
         Simple 732 Expr ["''.join"; "print"];
         Simple 734 Assign ["len"; "len"; "capture_files[].rfind"];
         Simple 735 Assign [];
         Simple 736 Assign [];
         Simple 738 Expr ["print"];
         Simple 739 Expr ["print"];
         Simple 740 Expr ["print"];
         Simple 741 Expr ["print"];
         Simple 742 Expr ["print"]] |};
    {| first_line := 751;
       body :=
        [Simple 751 Import [];
         Simple 753 Expr ["run_model_monitor_job_processor"]] |};
    {| first_line := 772;
       body :=
        [Simple 772 Assign ["boto3.Session"; "boto3.Session().client"];
         Simple 773 Assign ["''.format"];
         Simple 775 Assign ["s3_client.list_objects"];
         Try 776
           [Simple 777 Assign ["capture_file.get"; "''.format"; "result.get"];
            Simple 778 Expr ["print"];
            Simple 779 Expr ["''.join"; "print"]]
           [Simple 781 Expr ["print"]]] |};
    {| first_line := 790;
       body :=
        [Simple 790 Shell [];
         Simple 791 Shell [];
         Simple 792 Shell []] |};
    {| first_line := 808;
       body :=
        [Simple 808 Import [];
         Simple 809 Expr ["pd.set_option"];
         Simple 811 Assign ["open"];
         Simple 812 Assign ["file.read"];
         Simple 814 Assign ["json.loads"; "pd.json_normalize"];
         Simple 815 Expr []] |};
    {| first_line := 836;
       body :=
        [Simple 836 Shell [];
         Simple 837 Shell []] |};
    {| first_line := 846;
       body :=
        [Simple 846 Import [];
         With 847 ["open"]
           [Simple 848 Assign ["myfile.read"]];
         Simple 850 Expr ["json.loads"; "json.dumps"; "print"]] |};
    {| first_line := 870;
       body :=
        [] |} ].

(** Model build workflow. *)
Definition notebook_07 : list cell :=
  [ {| first_line := 33;
       body :=
        [Simple 33 Import [];
         Simple 34 Import [];
         Simple 35 Import [];
         Simple 38 Assign [];
         Def 40 "versiontuple"
           [Simple 41 Return ["v.split"; "map"; "tuple"]];
         If 43 ["versiontuple"; "versiontuple"]
           [Simple 44 Shell [];
            Simple 45 Expr
              [ "IPython.Application.instance";
                "IPython.Application.instance().kernel.do_shutdown" ]]] |};
    {| first_line := 54;
       body :=
        [Simple 54 Import [];
         Simple 55 Expr ["print"]] |};
    {| first_line := 64;
       body :=
        [Simple 64 Import [];
         Simple 65 Import [];
         Simple 67 Assign ["sagemaker.get_execution_role"];
         Simple 68 Assign ["boto3.Session"];
         Simple 69 Assign ["sagemaker.Session"];
         Simple 70 Assign ["sagemaker_session.default_bucket"];
         Simple 71 Assign [];
         Simple 73 Expr ["print"];
         Simple 74 Expr ["print"];
         Simple 75 Expr ["print"]] |};
    {| first_line := 134;
       body :=
        [Simple 134 Import [];
         Simple 145 Assign ["''.format"];
         Simple 146 Assign ["ParameterString"];
         Simple 149 Assign ["''.format"];
         Simple 150 Assign ["ParameterString"];
         Simple 153 Assign ["''.format"];
         Simple 154 Assign ["ParameterString"];
         Simple 157 Assign ["''.format"];
         Simple 158 Assign ["ParameterString"];
         Simple 161 Assign ["ParameterString"];
         Simple 164 Assign ["ParameterInteger"];
         Simple 167 Assign ["ParameterString"];
         Simple 174 Assign ["ParameterString"];
         Simple 175 Assign ["ParameterString"];
         Simple 176 Assign ["ParameterString"];
         Simple 177 Assign ["ParameterString"];
         Simple 178 Assign ["ParameterString"];
         Simple 179 Assign ["ParameterString"];
         Simple 180 Assign ["ParameterString"];
         Simple 181 Assign ["ParameterString"];
         Simple 184 Assign ["ParameterString"];
         Simple 187 Assign ["ParameterInteger"];
         Simple 190 Assign ["''.format"];
         Simple 191 Assign ["ParameterString"];
         Simple 198 Assign ["ParameterString"];
         Simple 201 Assign ["ParameterString"]] |};
    {| first_line := 221;
       body :=
        [Simple 221 Shell []] |};
    {| first_line := 230;
       body :=
        [Simple 230 Import [];
         Simple 231 Import [];
         Simple 233 Assign ["SKLearnProcessor"];
         Simple 238 Assign ["ProcessingInput"];
         Simple 241 Assign ["ProcessingOutput"; "ProcessingOutput"; "ProcessingOutput"];
         Simple 248 Assign []] |};
    {| first_line := 257;
       body :=
        [Simple 257 Import [];
         Simple 259 Assign ["ProcessingStep"];
         Simple 268 Expr ["print"]] |};
    {| first_line := 286;
       body :=
        [Simple 286 Shell []] |};
    {| first_line := 295;
       body :=
        [Simple 295 Import [];
         Simple 297 Assign [];
         Simple 309 Assign [];
         Simple 310 Assign [];
         Simple 311 Assign ["''.format"];
         Simple 313 Assign ["XGBoost"]] |};
    {| first_line := 333;
       body :=
        [Simple 333 Import [];
         Simple 334 Import [];
         Simple 336 Assign ["TrainingInput"; "TrainingInput"; "TrainingStep"];
         Simple 355 Expr ["print"]] |};
    {| first_line := 378;
       body :=
        [Simple 378 Assign []] |};
    {| first_line := 387;
       body :=
        [Simple 387 Assign ["sagemaker.image_uris.retrieve"];
         Simple 395 Expr ["print"]] |};
    {| first_line := 404;
       body :=
        [Simple 404 Import [];
         Simple 405 Import [];
         Simple 406 Import [];
         Simple 408 Assign ["SKLearn"];
         Simple 415 Expr ["dummy_estimator._prepare_for_training"];
         Simple 417 Assign ["RegisterModel"]] |};
    {| first_line := 446;
       body :=
        [Simple 446 Assign []] |};
    {| first_line := 455;
       body :=
        [Simple 455 Assign ["sagemaker.image_uris.retrieve"];
         Simple 463 Expr ["print"]] |};
    {| first_line := 472;
       body :=
        [Simple 472 Assign ["RegisterModel"]] |};
    {| first_line := 501;
       body :=
        [Simple 501 Import [];
         Simple 503 Assign [];
         Simple 505 Assign ["Pipeline"]] |};
    {| first_line := 542;
       body :=
        [Simple 542 Import [];
         Simple 543 Assign ["pipeline.definition"; "json.loads"];
         Simple 544 Expr []] |};
    {| first_line := 560;
       body :=
        [Simple 560 Assign ["pipeline.upsert"];
         Simple 562 Assign [];
         Simple 563 Expr ["print"]] |};
    {| first_line := 572;
       body :=
        [Simple 572 Assign ["pipeline.start"];
         Simple 575 Expr ["print"]] |};
    {| first_line := 591;
       body :=
        [Simple 591 Magic [];
         Simple 592 Expr ["execution.wait"]] |};
    {| first_line := 615;
       body :=
        [Simple 615 Assign ["execution.list_steps"];
         Simple 616 Assign ["next"];
         Simple 617 Assign ["next"];
         Simple 619 Assign [];
         Simple 620 Assign [];
         Simple 622 Expr ["print"];
         Simple 623 Expr ["print"]] |};
    {| first_line := 632;
       body :=
        [Simple 632 Assign ["boto3.client"];
         Simple 634 Expr ["sm_client.update_model_package"]] |};
    {| first_line := 646;
       body :=
        [Simple 646 Expr ["sm_client.update_model_package"]] |};
    {| first_line := 665;
       body :=
        [Simple 665 Assign ["sm_client.describe_model_package"];
         Simple 666 Assign ["sm_client.describe_model_package"];
         Simple 668 Assign [];
         Simple 669 Assign [];
         Simple 670 Expr ["print"];
         Simple 671 Expr ["print"];
         Simple 672 Expr ["print"];
         Simple 674 Assign [];
         Simple 675 Assign [];
         Simple 676 Expr ["print"];
         Simple 677 Expr ["print"]] |};
    {| first_line := 686;
       body :=
        [Simple 686 Assign ["sklearn_model_data.rfind"];
         Simple 687 Assign ["sklearn_model_data.rfind"]] |};
    {| first_line := 696;
       body :=
        [Simple 696 Shell [];
         Simple 697 Shell [];
         Simple 698 Shell [];
         Simple 699 Shell []] |};
    {| first_line := 708;
       body :=
        [Simple 708 Import [];
         Simple 709 Import [];
         Simple 711 Assign ["Model"];
         Simple 720 Assign ["Model"];
         Simple 729 Assign ["time.time"; "int"; "str"; "''.format"];
         Simple 731 Assign ["PipelineModel"];
         Simple 739 Assign ["time.time"; "int"; "str"; "''.format"];
         Simple 740 Expr ["print"];
         Simple 742 Expr ["pipeline_model.deploy"]] |};
    {| first_line := 760;
       body :=
        [Simple 760 Import [];
         Simple 761 Import [];
         Simple 762 Import [];
         Simple 764 Assign ["CSVSerializer"; "JSONDeserializer"; "Predictor"];
         Simple 770 Assign [];
         Simple 771 Expr ["predictor.predict"; "print"]] |};
    {| first_line := 787;
       body :=
        [Simple 787 Expr ["predictor.delete_endpoint"]] |} ].



(** The calls of a statement, each with the line of its statement. *)
Fixpoint calls_of (s : stmt) : list (nat * string) :=
  match s with
  | Simple l _ cs => map (pair l) cs
  | Def _ _ b => flat_map calls_of b
  | If l cs b | While l cs b | For l cs b | With l cs b =>
      map (pair l) cs ++ flat_map calls_of b
  | Try _ b h => flat_map calls_of b ++ flat_map calls_of h
  end.

Definition cell_calls (c : cell) : list (nat * string) :=
  flat_map calls_of (body c).


(** The notebooks by source file. *)
Definition notebooks : list (string * list cell) :=
  [ ("02_data_exploration_and_feature_eng", notebook_02);
    ("03_train_model", notebook_03);
    ("04_deploy_model", notebook_04);
    ("07_workflow", notebook_07) ].


Definition all_calls : list (string * (nat * string)) :=
  flat_map (fun '(n, cs) => map (pair n) (flat_map cell_calls cs)) notebooks.


(** The method or function name of a callee: what follows its last dot. *)
Fixpoint method_name (callee : string) : string :=
  match callee with
  | EmptyString => EmptyString
  | String a s' =>
      if PyStr.contains "." s' then method_name s'
      else if Ascii.eqb a "." then s'
      else callee
  end.

(** Helpers that the notebooks import from [notebook_utilities] and call to
    remove resources.  The module is not part of the notebooks; the cell
    that calls [cleanup_glue_resources()] is introduced with "first we want
    to make sure these AWS resources to not exist yet", the resources being
    the Glue database, crawler and table that the next cells create. *)
Definition removing_helpers : list string := ["cleanup_glue_resources"].

(** A call that removes or cancels something on the platform: a method of a
    client library named [delete...], [cancel...] or [stop...], or one of
    the removing helpers. *)
Definition removes (callee : string) : bool :=
  let m := method_name callee in
  String.prefix "delete" m || String.prefix "cancel" m || String.prefix "stop" m
  || bool_decide (callee ∈ removing_helpers).

Definition removals : list (string * (nat * string)) :=
  List.filter (fun c => removes (snd (snd c))) all_calls.

(** The shell lines ([!...]) of the cells, by notebook and line, with the
    program they run (for [aws], with the service and the command). *)
Definition shell_commands : list (string * (nat * string)) :=
  [ ("02_data_exploration_and_feature_eng", 
     (38%nat, "{sys.executable} -m pip install"));
    ("02_data_exploration_and_feature_eng", (261%nat, "pip install"));
    ("02_data_exploration_and_feature_eng", (262%nat, "pip install"));
    ("02_data_exploration_and_feature_eng", (405%nat, "pip install"));
    ("02_data_exploration_and_feature_eng", (490%nat, "pygmentize"));
    ("03_train_model", (950%nat, "{sys.executable} -m pip install"));
    ("03_train_model", (1022%nat, "pygmentize"));
    ("04_deploy_model", (41%nat, "{sys.executable} -m pip install"));
    ("04_deploy_model", (139%nat, "pygmentize"));
    ("04_deploy_model", (196%nat, "pygmentize"));
    ("04_deploy_model", (367%nat, "aws s3 cp"));
    ("04_deploy_model", (368%nat, "head"));
    ("04_deploy_model", (513%nat, "aws s3 cp"));
    ("04_deploy_model", (514%nat, "aws s3 cp"));
    ("04_deploy_model", (541%nat, "aws s3 cp"));
    ("04_deploy_model", (566%nat, "aws s3 cp"));
    ("04_deploy_model", (623%nat, "pygmentize"));
    ("04_deploy_model", (790%nat, "aws s3 cp"));
    ("04_deploy_model", (791%nat, "aws s3 cp"));
    ("04_deploy_model", (792%nat, "aws s3 cp"));
    ("04_deploy_model", (836%nat, "aws s3 cp"));
    ("04_deploy_model", (837%nat, "aws s3 cp"));
    ("07_workflow", (44%nat, "{sys.executable} -m pip install"));
    ("07_workflow", (221%nat, "pygmentize"));
    ("07_workflow", (286%nat, "pygmentize"));
    ("07_workflow", (696%nat, "tar"));
    ("07_workflow", (697%nat, "aws s3 cp"));
    ("07_workflow", (698%nat, "tar"));
    ("07_workflow", (699%nat, "aws s3 cp")) ].

Fixpoint shells (s : stmt) : list nat :=
  match s with
  | Simple l Shell _ => [l]
  | Simple _ _ _ => []
  | Def _ _ b | If _ _ b | While _ _ b | For _ _ b | With _ _ b =>
      flat_map shells b
  | Try _ b h => flat_map shells b ++ flat_map shells h
  end.

Definition all_shells : list (string * nat) :=
  flat_map (fun '(n, cs) =>
              map (pair n) (flat_map (fun c => flat_map shells (body c)) cs))
           notebooks.

(** *** Running a cell

    What a statement does is left to an oracle: whether the evaluation
    number [n] of the run raises, and with what; whether a condition
    evaluated as number [n] holds; how many items a [for] loop whose
    iterable is evaluated as number [n] goes through.  Simple statements,
    conditions, iterables and context managers are one evaluation each.  A
    shell line never raises; a function definition evaluates nothing. *)

Record oracle : Type :=
  { raises : nat -> option exn;
    holds : nat -> bool;
    items : nat -> nat }.

Record run : Type :=
  { evaluations : nat;       (* evaluations made so far *)
    executed : list nat }.   (* lines of the statements run, in order *)

Inductive outcome : Type :=
| Normal
| Raised (e : exn).

Definition start : run := {| evaluations := 0; executed := [] |}.

Definition pass (line : nat) (r : run) : run :=
  {| evaluations := evaluations r; executed := executed r ++ [line] |}.

Definition evaluate (line : nat) (r : run) : run :=
  {| evaluations := S (evaluations r); executed := executed r ++ [line] |}.

Definition repeat_body (n : nat) (b : list stmt) : list stmt :=
  concat (replicate n b).

(** [exec fuel o ss r]: run the statements [ss]; [None] when [fuel]
    statements were not enough. *)
Fixpoint exec (fuel : nat) (o : oracle) (ss : list stmt) (r : run)
  : option (outcome * run) :=
  match fuel with
  | O => None
  | S fuel =>
      let guarded (line : nat) (next : list stmt) : option (outcome * run) :=
        match raises o (evaluations r) with
        | Some e => Some (Raised e, evaluate line r)
        | None => exec fuel o next (evaluate line r)
        end in
      match ss with
      | [] => Some (Normal, r)
      | Simple line Shell _ :: rest => exec fuel o rest (pass line r)
      | Simple line _ _ :: rest => guarded line rest
      | Def line _ _ :: rest => exec fuel o rest (pass line r)
      | If line _ b :: rest =>
          guarded line (if holds o (evaluations r) then (b ++ rest)%list else rest)
      | While line cs b :: rest =>
          guarded line (if holds o (evaluations r)
                        then (b ++ While line cs b :: rest)%list else rest)
      | For line _ b :: rest =>
          guarded line (repeat_body (items o (evaluations r)) b ++ rest)%list
      | With line _ b :: rest => guarded line (b ++ rest)%list
      | Try line b h :: rest =>
          match exec fuel o b (pass line r) with
          | None => None
          | Some (Normal, r') => exec fuel o rest r'
          | Some (Raised _, r') => exec fuel o (h ++ rest)%list r'
          end
      end
  end.

(** The cell of notebook 04 that lists the monitoring reports. *)
Definition monitoring_reports_cell : cell :=
  {| first_line := 772;
     body :=
       [ Simple 772 Assign ["boto3.Session"; "boto3.Session().client"];
         Simple 773 Assign ["''.format"];
         Simple 775 Assign ["s3_client.list_objects"];
         Try 776
           [ Simple 777 Assign ["capture_file.get"; "''.format"; "result.get"];
             Simple 778 Expr ["print"];
             Simple 779 Expr ["''.join"; "print"] ]
           [ Simple 781 Expr ["print"] ] ] |}.

(** Oracles: nothing raises; evaluation [n] raises [e]. *)
Definition quiet : oracle :=
  {| raises := fun _ => None; holds := fun _ => false; items := fun _ => 0%nat |}.


End Notebook.

(** ** Re-running the reordering cell *)

Module Rerun.

(** The two statements of the reordering cell, run [n] times in a row on
    the same list. *)
Fixpoint reorder_times {A : Type} (n : nat) (features : list A)
  : result (list A) :=
  match n with
  | O => Ok features
  | S n' => features <- Baseline.reorder features ;; reorder_times n' features
  end.

End Rerun.

(** ** Notebook 04: the capture files

    <<
    result = s3_client.list_objects(Bucket=bucket_name, Prefix=current_endpoint_capture_prefix)
    capture_files = ['s3://{0}/{1}'.format(bucket_name, capture_file.get("Key")) for capture_file in result.get('Contents')]
    ...
    data_capture_path = capture_files[len(capture_files) - 1][: capture_files[len(capture_files) - 1].rfind('/')]
    >>
    The response of [list_objects] has no ['Contents'] entry when nothing
    matches the prefix; an entry of ['Contents'] is held as its ['Key'],
    [None] when it has none. *)

Module Capture.

(** ['s3://{0}/{1}'.format(bucket_name, capture_file.get("Key"))]; a
    missing key is formatted as [None]. *)
Definition object_uri (bucket_name : string) (Key : option string) : string :=
  "s3://" +:+ bucket_name +:+ "/" +:+ default "None" Key.

(** The list comprehension: iterating over [None] is a [TypeError]. *)
Definition list_uris (bucket_name : string)
  (Contents : option (list (option string))) : result (list string) :=
  match Contents with
  | None => Raise TypeError
  | Some entries => Ok (map (object_uri bucket_name) entries)
  end.

(** [capture_files[len(capture_files) - 1][: capture_files[len(capture_files) - 1].rfind('/')]] *)
Definition data_capture_path (capture_files : list string) : result string :=
  let last := Z.of_nat (length capture_files) - 1 in
  sliced <- PyList.getitem capture_files last ;;
  searched <- PyList.getitem capture_files last ;;
  Ok (PyStr.slice_to sliced (PyStr.rfind "/" searched)).

(** [data.split('\n')[0]]: the first record of the capture file read into
    [data], as passed to [json.loads]. *)
Definition first_record (data : string) : result string :=
  PyList.getitem (Version.split "010" data) 0.

End Capture.

(** ** Notebook 07: uploading the inference code next to the models

    <<
    !tar -cvzf sklearn_sourcedir.tar.gz -C ../04_deploy_model/sklearn_source_dir/ .
    !aws s3 cp sklearn_sourcedir.tar.gz {sklearn_model_path}
    !tar -cvzf xgboost_sourcedir.tar.gz -C ../04_deploy_model/xgboost_source_dir/ .
    !aws s3 cp xgboost_sourcedir.tar.gz {xgboost_model_path}
    >>
    and, in the two [Model(...)] calls,
    <<
    'SAGEMAKER_SUBMIT_DIRECTORY' : sklearn_model_path + 'sklearn_sourcedir.tar.gz',
    'SAGEMAKER_SUBMIT_DIRECTORY' : xgboost_model_path + 'xgboost_sourcedir.tar.gz',
    >> *)

Module Deploy.

Fixpoint ends_with_slash (s : string) : bool :=
  match s with
  | EmptyString => false
  | String a EmptyString => Ascii.eqb a "/"
  | String _ s' => ends_with_slash s'
  end.

(** Where [aws s3 cp <file> <uri>] puts the file: under the file's own
    name when the URI ends with a slash, at the URI otherwise. *)
Definition s3_cp_target (file uri : string) : string :=
  if ends_with_slash uri then uri +:+ Registry.basename file else uri.

(** [tar -cvzf <file> ...]: the archive becomes the content of [file]. *)
Definition tar (file : string) (archive : Storage.object) (w : Storage.world)
  : Storage.world :=
  {| Storage.s3 := Storage.s3 w;
     Storage.files := <[file := archive]> (Storage.files w);
     Storage.s3_puts := Storage.s3_puts w |}.

(** The destination is an object store URI. *)
Definition is_s3_uri (uri : string) : bool := String.prefix "s3://" uri.

(** [!aws s3 cp <file> <uri>] for a destination that may be unusable.  The
    command writes only when the destination is an [s3://] URI and the
    store accepts a put at the target ([accepts]: the bucket exists and may
    be written to); otherwise it fails and writes nothing, and the shell
    line goes on. *)
Definition s3_cp (accepts : string -> bool) (file uri : string)
  (w : Storage.world) : Storage.world :=
  let target := s3_cp_target file uri in
  if is_s3_uri uri && accepts target
  then Storage.s3_cp_upload file target w
  else w.

(** The cell with the four shell lines. *)
Definition upload_source_dirs (accepts : string -> bool)
  (sklearn_model_data xgboost_model_data : string)
  (sklearn_archive xgboost_archive : Storage.object) (w : Storage.world)
  : Storage.world :=
  let sklearn_model_path := Registry.sklearn_model_path sklearn_model_data in
  let xgboost_model_path :=
    Registry.xgboost_model_path sklearn_model_data xgboost_model_data in
  let w := tar "sklearn_sourcedir.tar.gz" sklearn_archive w in
  let w := s3_cp accepts "sklearn_sourcedir.tar.gz" sklearn_model_path w in
  let w := tar "xgboost_sourcedir.tar.gz" xgboost_archive w in
  s3_cp accepts "xgboost_sourcedir.tar.gz" xgboost_model_path w.




End Deploy.

(** ** What the outcome of a cell tells *)

Module Cells.
Import Notebook.


End Cells.

(** ** The keys the table-schema update removes *)

Module UpdateTable.

(** The key deleted by [del] and the five keys removed by [pop]. *)
Definition removed_keys : list string :=
  [ "CatalogId"; "DatabaseName"; "CreateTime"; "UpdateTime"; "CreatedBy";
    "IsRegisteredWithLakeFormation" ].

End UpdateTable.

(** ** Proof automation *)

(** Membership in a list given by its elements. *)
Ltac in_list := simpl; repeat (first [left; reflexivity | right]).

(** * Theorems *)

(** ** The version gate *)

Example versiontuple_required :
  Version.versiontuple Version.required_version = Ok [2; 46; 0].
Proof. reflexivity. Qed.

Example versiontuple_padded :
  Version.versiontuple " 2.+46.1_0" = Ok [2; 46; 10].
Proof. reflexivity. Qed.

Example versiontuple_rc : Version.versiontuple "2.46.0rc1" = Raise ValueError.
Proof. reflexivity. Qed.

Example versiontuple_empty : Version.versiontuple "" = Raise ValueError.
Proof. reflexivity. Qed.

Example gate_2_9_0 : Version.upgrade_branch_taken "2.9.0" = Ok true.
Proof. reflexivity. Qed.

Example gate_2_46_0 : Version.upgrade_branch_taken "2.46.0" = Ok false.
Proof. reflexivity. Qed.

Example gate_2_46 : Version.upgrade_branch_taken "2.46" = Ok true.
Proof. reflexivity. Qed.

Section VersionFacts.
Import Version.

Lemma digit_is_plain c :
  is_Some (digit_value c) ->
  is_space c = false /\ Ascii.eqb c "." = false /\
  c <> "+"%char /\ c <> "-"%char.
Proof.
  intros [d Hd]. unfold digit_value in Hd. case_match; [|discriminate].
  apply andb_true_iff in H as [H1 H2].
  apply N.leb_le in H1. apply N.leb_le in H2.
  repeat split.
  - unfold is_space. cbv zeta.
    repeat (apply orb_false_iff; split);
      [apply andb_false_iff; right; apply N.leb_gt; lia
      |apply N.eqb_neq; lia..].
  - apply Ascii.eqb_neq. intros ->. vm_compute in H1. done.
  - intros ->. vm_compute in H1. done.
  - intros ->. vm_compute in H1. done.
Qed.

Lemma all_digits_cons c s :
  all_digits (String c s) -> is_Some (digit_value c) /\ all_digits s.
Proof.
  intros H. split; [apply H; now left|]. intros c' Hc'. apply H. now right.
Qed.

Lemma lstrip_digits s : all_digits s -> lstrip s = s.
Proof.
  destruct s as [|c s]; [done|]. intros [Hc _]%all_digits_cons.
  simpl. by destruct (digit_is_plain c Hc) as [-> _].
Qed.

Lemma rstrip_digits s : all_digits s -> rstrip s = s.
Proof.
  induction s as [|c s IH]; [done|]. intros [Hc Hs]%all_digits_cons.
  simpl. rewrite (IH Hs). destruct s; [|done].
  by destruct (digit_is_plain c Hc) as [-> _].
Qed.

Lemma int_body_digits s : forall acc,
  all_digits s ->
  int_body acc true s
  = Some (acc * 10 ^ Z.of_nat (String.length s) + numeral_value s).
Proof.
  induction s as [|c s IH]; intros acc Hs.
  - simpl. f_equal. lia.
  - apply all_digits_cons in Hs as [[d Hd] Hs].
    cbn [int_body numeral_value String.length]. rewrite Hd. cbn [default].
    rewrite (IH _ Hs). f_equal.
    rewrite Nat2Z.inj_succ, Z.pow_succ_r by lia. unfold id. ring.
Qed.

Lemma int_decimal s : decimal s -> int s = Ok (numeral_value s).
Proof.
  intros [Hne Hs].
  unfold int, strip. rewrite (lstrip_digits s Hs), (rstrip_digits s Hs).
  destruct s as [|c s]; [done|].
  pose proof Hs as [Hc Hs']%all_digits_cons.
  destruct (digit_is_plain c Hc) as (_ & _ & Hplus & Hminus).
  assert (Hbody : int_body 0 false (String c s)
                  = Some (numeral_value (String c s))).
  { destruct Hc as [d Hd]. cbn [int_body numeral_value]. rewrite Hd.
    rewrite (int_body_digits s _ Hs'). cbn [default]. unfold id. f_equal; ring. }
  destruct c as [[] [] [] [] [] [] [] []]; try congruence;
    rewrite Hbody; f_equal; lia.
Qed.

Lemma split_digits s : all_digits s -> split "." s = [s].
Proof.
  induction s as [|c s IH]; [done|]. intros [Hc Hs]%all_digits_cons.
  simpl. destruct (digit_is_plain c Hc) as (_ & -> & _). by rewrite (IH Hs).
Qed.

Lemma split_app_dot s t :
  all_digits s -> split "." (s +:+ String "." t) = s :: split "." t.
Proof.
  induction s as [|c s IH]; [done|]. intros [Hc Hs]%all_digits_cons.
  simpl. destruct (digit_is_plain c Hc) as (_ & -> & _).
  by rewrite (IH Hs).
Qed.

Lemma split_dotted cs :
  cs <> [] -> Forall decimal cs -> split "." (dotted cs) = cs.
Proof.
  induction cs as [|c cs IH]; [done|]. intros _ Hall.
  apply Forall_cons in Hall as [[_ Hc] Hcs].
  destruct cs as [|c' cs].
  - simpl. by apply split_digits.
  - change (dotted (c :: c' :: cs)) with (c +:+ String "." (dotted (c' :: cs))).
    rewrite split_app_dot by done. by rewrite IH.
Qed.

Lemma map_int_decimal cs :
  Forall decimal cs -> map_result int cs = Ok (map numeral_value cs).
Proof.
  induction 1 as [|c cs Hc _ IH]; [done|].
  simpl. by rewrite (int_decimal c Hc), IH.
Qed.

Lemma versiontuple_dotted cs :
  cs <> [] -> Forall decimal cs ->
  versiontuple (dotted cs) = Ok (map numeral_value cs).
Proof.
  intros Hne Hall. unfold versiontuple.
  rewrite split_dotted by done. by apply map_int_decimal.
Qed.

Lemma tuple_lt_precedes a : forall b,
  tuple_lt a b = true <-> numeric_precedes a b.
Proof.
  induction a as [|x a IH]; intros [|y b]; simpl.
  - split; [done|inversion 1].
  - split; [constructor|done].
  - split; [done|inversion 1].
  - destruct (Z.eqb_spec x y) as [->|Hne].
    + rewrite IH. split; [by constructor|].
      inversion 1; subst; [lia|done].
    + rewrite Z.ltb_lt. split; [by constructor|].
      inversion 1; subst; [done|congruence].
Qed.

End VersionFacts.

(** C8. For version strings made of dot-separated decimal integers,
    [versiontuple] returns the list of the components' numeric values,
    [versiontuple a < versiontuple b] holds exactly when [a] precedes [b] in
    the lexicographic order over those integers, ['2.9.0'] is older than
    ['2.46.0'], and the upgrade-and-restart branch is taken exactly when the
    installed version precedes the required ['2.46.0']. *)
Theorem versiontuple_orders_numerically (ca cb : list string)
  (Ha : ca <> []) (Hb : cb <> [])
  (Hca : Forall Version.decimal ca) (Hcb : Forall Version.decimal cb) :
  (exists ta tb,
      Version.versiontuple (Version.dotted ca) = Ok ta /\
      Version.versiontuple (Version.dotted cb) = Ok tb /\
      ta = map Version.numeral_value ca /\
      tb = map Version.numeral_value cb /\
      (Version.tuple_lt ta tb = true <-> Version.numeric_precedes ta tb)) /\
  (exists ta tb,
      Version.versiontuple "2.9.0" = Ok ta /\
      Version.versiontuple "2.46.0" = Ok tb /\
      Version.tuple_lt ta tb = true) /\
  (exists taken,
      Version.upgrade_branch_taken (Version.dotted ca) = Ok taken /\
      (taken = true <->
       Version.numeric_precedes (map Version.numeral_value ca) [2; 46; 0])).
Proof.
  split; [|split].
  - exists (map Version.numeral_value ca), (map Version.numeral_value cb).
    rewrite !versiontuple_dotted by done.
    repeat split; try apply tuple_lt_precedes; by apply tuple_lt_precedes.
  - exists [2; 9; 0], [2; 46; 0]. by repeat split.
  - exists (Version.tuple_lt (map Version.numeral_value ca) [2; 46; 0]).
    unfold Version.upgrade_branch_taken.
    rewrite versiontuple_dotted by done. split; [done|].
    apply tuple_lt_precedes.
Qed.

Lemma versiontuple_orders_numerically_witness :
  exists taken,
    Version.upgrade_branch_taken (Version.dotted ["2"; "9"; "0"]) = Ok taken /\
    (taken = true <-> Version.numeric_precedes [2; 9; 0] [2; 46; 0]).
Proof.
  assert (Hdec : forall s,
    s <> EmptyString ->
    forallb (fun c => bool_decide (is_Some (Version.digit_value c)))
            (list_ascii_of_string s) = true -> Version.decimal s).
  { intros s Hne Hall. split; [done|]. intros c Hc.
    rewrite forallb_forall in Hall. specialize (Hall c Hc).
    by apply bool_decide_eq_true in Hall. }
  apply (versiontuple_orders_numerically ["2"; "9"; "0"] ["2"; "46"; "0"]).
  - discriminate.
  - discriminate.
  - repeat constructor; by apply Hdec.
  - repeat constructor; by apply Hdec.
Defined.

(** ** The feature reordering of the baseline files *)

Example reorder_three :
  Baseline.reorder ["wind_speed"; "rpm_blade"; "breakdown"]
  = Ok ["breakdown"; "wind_speed"; "rpm_blade"].
Proof. reflexivity. Qed.

Example reorder_one : Baseline.reorder ["breakdown"] = Ok ["breakdown"].
Proof. reflexivity. Qed.

(** ** The registry paths *)

Example sklearn_path_example :
  Registry.sklearn_model_path "s3://bucket/endtoendmlsm/output/sklearn/model.tar.gz"
  = "s3://bucket/endtoendmlsm/output/sklearn/".
Proof. reflexivity. Qed.

Example xgboost_path_example :
  Registry.xgboost_model_path
    "s3://bucket/endtoendmlsm/output/sklearn/model.tar.gz"
    "s3://bucket/endtoendmlsm/output/pipelines-x1-Training-y2/output/model.tar.gz"
  = "s3://bucket/endtoendmlsm/output/pipelin/".
Proof. reflexivity. Qed.

Example parent_prefix_example :
  Registry.parent_prefix
    "s3://bucket/endtoendmlsm/output/pipelines-x1-Training-y2/output/model.tar.gz"
  = "s3://bucket/endtoendmlsm/output/pipelines-x1-Training-y2/output/".
Proof. reflexivity. Qed.


Section PyListFacts.
Context {A : Type}.

Lemma getitem_last (xs : list A) (x : A) :
  PyList.getitem (xs ++ [x]) (-1) = Ok x.
Proof.
  unfold PyList.getitem, PyList.index. rewrite length_app. simpl.
  replace (-1 + Z.of_nat (length xs + 1)%nat) with (Z.of_nat (length xs)) by lia.
  rewrite Nat2Z.id.
  replace (Z.leb 0 (Z.of_nat (length xs))) with true by (symmetry; apply Z.leb_le; lia).
  replace (Z.ltb (Z.of_nat (length xs)) (Z.of_nat (length xs + 1)%nat)) with true
    by (symmetry; apply Z.ltb_lt; lia).
  simpl. by rewrite list_lookup_middle.
Qed.

Lemma getitem_nil (i : Z) : PyList.getitem (@nil A) i = Raise IndexError.
Proof.
  unfold PyList.getitem, PyList.index. simpl. rewrite Z.add_0_r.
  replace (if Z.ltb i 0 then i else i) with i by (by destruct (Z.ltb i 0)).
  by destruct (_ && _).
Qed.

Lemma insert_front (l : list A) (x : A) : PyList.insert l 0 x = x :: l.
Proof.
  unfold PyList.insert. simpl.
  replace (Z.min 0 (Z.of_nat (length l))) with 0 by lia. done.
Qed.

Lemma delitem_last (l : list A) (x : A) :
  PyList.delitem (l ++ [x]) (-1) = Ok l.
Proof.
  unfold PyList.delitem, PyList.index. rewrite length_app. simpl.
  replace (-1 + Z.of_nat (length l + 1)%nat) with (Z.of_nat (length l)) by lia.
  rewrite Nat2Z.id.
  replace (Z.leb 0 (Z.of_nat (length l))) with true by (symmetry; apply Z.leb_le; lia).
  replace (Z.ltb (Z.of_nat (length l)) (Z.of_nat (length l + 1)%nat)) with true
    by (symmetry; apply Z.ltb_lt; lia).
  simpl. f_equal. induction l as [|a l IH]; [done|]. simpl. by rewrite IH.
Qed.

Lemma reorder_snoc (xs : list A) (x : A) :
  Baseline.reorder (xs ++ [x]) = Ok (x :: xs).
Proof.
  unfold Baseline.reorder. rewrite getitem_last. simpl.
  rewrite insert_front.
  change (x :: xs ++ [x])%list with ((x :: xs) ++ [x])%list. apply delitem_last.
Qed.

Lemma reorder_nil : Baseline.reorder (@nil A) = Raise IndexError.
Proof. unfold Baseline.reorder. by rewrite getitem_nil. Qed.

End PyListFacts.

(** C9. On a non-empty ['features'] list, written [xs ++ [x]], inserting the
    last element at index 0 and deleting the last element yields [x :: xs]:
    the original last element, then the others in their original order; the
    length and the multiset of elements are those of the original.  On the
    empty list the step raises [IndexError]. *)
Theorem reorder_moves_last_to_front {A : Type} (xs : list A) (x : A) :
  Baseline.reorder (xs ++ [x]) = Ok (x :: xs) /\
  length (x :: xs) = length (xs ++ [x])%list /\
  (x :: xs ≡ₚ xs ++ [x])%list /\
  Baseline.reorder (@nil A) = Raise IndexError.
Proof.
  split; [apply reorder_snoc|]. split; [rewrite length_app; simpl; lia|].
  split; [|apply reorder_nil].
  by rewrite Permutation_app_comm.
Qed.


Section PyStrFacts.
Import PyStr.

Lemma rfind_from_absent c s : forall i last,
  contains c s = false -> rfind_from c s i last = last.
Proof.
  induction s as [|a s IH]; intros i last H; [done|].
  simpl in *. apply orb_false_iff in H as [-> H]. by apply IH.
Qed.

Lemma rfind_from_last d b : forall i last,
  contains "/" b = false ->
  rfind_from "/" (d +:+ String "/" b) i last = i + Z.of_nat (String.length d).
Proof.
  induction d as [|a d IH]; intros i last Hb.
  - simpl. rewrite rfind_from_absent by done. lia.
  - simpl. rewrite IH by done. lia.
Qed.

Lemma contains_app_slash d b : contains "/" (d +:+ String "/" b) = true.
Proof.
  induction d as [|a d IH]; [done|]. simpl. rewrite IH. apply orb_true_r.
Qed.

Lemma last_slash_decompose s :
  contains "/" s = true ->
  exists d b, s = d +:+ String "/" b /\ contains "/" b = false.
Proof.
  induction s as [|a s IH]; [done|]. simpl. intros H.
  destruct (contains "/" s) eqn:Hs.
  - destruct IH as (d & b & -> & Hb); [done|]. by exists (String a d), b.
  - rewrite orb_false_r in H. apply Ascii.eqb_eq in H as ->.
    by exists EmptyString, s.
Qed.

Lemma substring_prefix d t : substring 0 (String.length d) (d +:+ t) = d.
Proof.
  induction d as [|a d IH]; simpl; [by destruct t|]. by rewrite IH.
Qed.

Lemma length_substring_0 s : forall k,
  String.length (substring 0 k s) = Nat.min k (String.length s).
Proof.
  induction s as [|a s IH]; intros [|k]; simpl; try done. by rewrite IH.
Qed.

Lemma length_append s t :
  String.length (s +:+ t) = (String.length s + String.length t)%nat.
Proof. induction s as [|a s IH]; simpl; [done|]. by rewrite IH. Qed.

Lemma slice_to_prefix d t :
  slice_to (d +:+ t) (Z.of_nat (String.length d)) = d.
Proof.
  unfold slice_to. rewrite length_append.
  replace (Z.ltb (Z.of_nat (String.length d)) 0) with false
    by (symmetry; apply Z.ltb_ge; lia).
  rewrite Z.min_l by lia. rewrite Nat2Z.id. apply substring_prefix.
Qed.

Lemma slice_to_nat s (k : nat) : slice_to s (Z.of_nat k) = substring 0 k s.
Proof.
  unfold slice_to.
  replace (Z.ltb (Z.of_nat k) 0) with false by (symmetry; apply Z.ltb_ge; lia).
  destruct (Nat.le_gt_cases k (String.length s)) as [Hle|Hgt].
  - rewrite Z.min_l by lia. by rewrite Nat2Z.id.
  - rewrite Z.min_r by lia. rewrite Nat2Z.id.
    clear -Hgt. revert k Hgt.
    induction s as [|a s IH]; intros [|k] Hk; simpl in *; try lia; try done.
    f_equal. apply IH. lia.
Qed.

Lemma append_char_inj s t c : s +:+ String c "" = t +:+ String c "" -> s = t.
Proof.
  revert t. induction s as [|a s IH]; intros [|b t] H; simpl in *.
  - done.
  - injection H as _ H. by destruct t.
  - injection H as _ H. by destruct s.
  - injection H as -> H. f_equal. by apply IH.
Qed.

Lemma get_absent c s : forall j, contains c s = false -> get j s <> Some c.
Proof.
  induction s as [|a s IH]; intros j H; [by destruct j|].
  simpl in H. apply orb_false_iff in H as [Ha Hs].
  destruct j as [|j]; simpl; [|by apply IH].
  intros [= ->]. by rewrite Ascii.eqb_refl in Ha.
Qed.

Lemma get_last_slash d b :
  contains "/" b = false ->
  get (String.length d) (d +:+ String "/" b) = Some "/"%char /\
  forall j, (String.length d < j)%nat ->
            get j (d +:+ String "/" b) <> Some "/"%char.
Proof.
  intros Hb. induction d as [|a d [IH1 IH2]]; simpl.
  - split; [done|]. intros [|j] Hj; [lia|]. by apply get_absent.
  - split; [done|]. intros [|j] Hj; [lia|]. apply IH2. lia.
Qed.

End PyStrFacts.

Section RegistryFacts.
Import PyStr Registry.

Lemma rfind_decomposed d b :
  contains "/" b = false ->
  rfind "/" (d +:+ String "/" b) = Z.of_nat (String.length d).
Proof. intros Hb. unfold rfind. by rewrite rfind_from_last. Qed.

Lemma parent_prefix_decomposed d b :
  contains "/" b = false ->
  parent_prefix (d +:+ String "/" b) = d +:+ "/".
Proof.
  intros Hb. induction d as [|a d IH]; simpl.
  - by rewrite Hb.
  - by rewrite contains_app_slash, IH.
Qed.

Lemma basename_decomposed d b :
  contains "/" b = false -> basename (d +:+ String "/" b) = b.
Proof.
  intros Hb. induction d as [|a d IH]; simpl.
  - by rewrite Hb.
  - by rewrite contains_app_slash.
Qed.

Lemma append_assoc_slash d b : (d +:+ "/") +:+ b = d +:+ String "/" b.
Proof.
  induction d as [|a d IH]; [done|].
  change (String a ((d +:+ "/") +:+ b) = String a (d +:+ String "/" b)).
  by rewrite IH.
Qed.

Lemma sklearn_model_path_decomposed d b :
  contains "/" b = false ->
  sklearn_model_path (d +:+ String "/" b) = d +:+ "/".
Proof.
  intros Hb. unfold sklearn_model_path.
  by rewrite rfind_decomposed, slice_to_prefix.
Qed.

Lemma xgboost_model_path_parent d1 b1 d2 b2 :
  contains "/" b1 = false -> contains "/" b2 = false ->
  xgboost_model_path (d1 +:+ String "/" b1) (d2 +:+ String "/" b2)
  = parent_prefix (d2 +:+ String "/" b2)
  <-> String.length d1 = String.length d2.
Proof.
  intros H1 H2. unfold xgboost_model_path.
  rewrite rfind_decomposed, parent_prefix_decomposed by done.
  split.
  - intros H%append_char_inj.
    apply (f_equal String.length) in H.
    rewrite slice_to_nat, length_substring_0, length_append in H.
    simpl in H. lia.
  - intros ->. by rewrite slice_to_prefix.
Qed.

End RegistryFacts.

(** C10. For URIs that contain a ['/']: [sklearn_model_path] is
    [sklearn_model_data] cut just past its last ['/'], so appending the
    basename gives [sklearn_model_data] back; [xgboost_model_path] is
    [xgboost_model_data] cut at the index of the last ['/'] of
    [sklearn_model_data], followed by ['/']; it is the parent-directory
    prefix of the XGBoost artifact exactly when both URIs have their last
    ['/'] at the same index, and there are URIs for which it is not. *)
Theorem registry_model_paths (sklearn_model_data xgboost_model_data : string)
  (Hsk : PyStr.contains "/" sklearn_model_data = true)
  (Hxgb : PyStr.contains "/" xgboost_model_data = true) :
  Registry.sklearn_model_path sklearn_model_data
  = Registry.parent_prefix sklearn_model_data /\
  Registry.sklearn_model_path sklearn_model_data
  +:+ Registry.basename sklearn_model_data = sklearn_model_data /\
  (exists i : nat,
      PyStr.rfind "/" sklearn_model_data = Z.of_nat i /\
      get i sklearn_model_data = Some "/"%char /\
      (forall j, (i < j)%nat -> get j sklearn_model_data <> Some "/"%char) /\
      Registry.xgboost_model_path sklearn_model_data xgboost_model_data
      = substring 0 i xgboost_model_data +:+ "/") /\
  (Registry.xgboost_model_path sklearn_model_data xgboost_model_data
   = Registry.parent_prefix xgboost_model_data
   <-> PyStr.rfind "/" sklearn_model_data = PyStr.rfind "/" xgboost_model_data) /\
  (exists sk xgb,
      PyStr.contains "/" sk = true /\ PyStr.contains "/" xgb = true /\
      Registry.xgboost_model_path sk xgb <> Registry.parent_prefix xgb).
Proof.
  destruct (last_slash_decompose _ Hsk) as (d1 & b1 & -> & Hb1).
  destruct (last_slash_decompose _ Hxgb) as (d2 & b2 & -> & Hb2).
  split; [|split; [|split; [|split]]].
  - by rewrite sklearn_model_path_decomposed, parent_prefix_decomposed.
  - rewrite sklearn_model_path_decomposed, basename_decomposed by done.
    apply append_assoc_slash.
  - exists (String.length d1). rewrite rfind_decomposed by done.
    destruct (get_last_slash d1 b1 Hb1) as [Hget Hlast].
    repeat split; try done.
    unfold Registry.xgboost_model_path.
    by rewrite rfind_decomposed, slice_to_nat.
  - rewrite xgboost_model_path_parent, !rfind_decomposed by done. lia.
  - exists "s3://bucket/endtoendmlsm/output/sklearn/model.tar.gz",
      "s3://bucket/endtoendmlsm/output/pipelines-x1-Training-y2/output/model.tar.gz".
    by repeat split.
Qed.

Lemma registry_model_paths_witness :
  Registry.sklearn_model_path "s3://bucket/endtoendmlsm/output/sklearn/model.tar.gz"
  = "s3://bucket/endtoendmlsm/output/sklearn/" /\
  Registry.xgboost_model_path
    "s3://bucket/endtoendmlsm/output/sklearn/model.tar.gz"
    "s3://bucket/endtoendmlsm/output/xgboost/model.tar.gz"
  = "s3://bucket/endtoendmlsm/output/xgboost/".
Proof.
  destruct (registry_model_paths
              "s3://bucket/endtoendmlsm/output/sklearn/model.tar.gz"
              "s3://bucket/endtoendmlsm/output/xgboost/model.tar.gz"
              eq_refl eq_refl) as (H1 & _ & _ & H4 & _).
  split; [exact H1|]. apply H4. reflexivity.
Defined.


(** ** The table-schema update *)

Section GlueFacts.
Import Glue.

Lemma updated_table_columns (Table : gmap string tvalue) sd :
  Table !! "CatalogId" <> None ->
  Table !! "StorageDescriptor" = Some (TDict sd) ->
  exists t, updated_table Table = Ok t /\
            registered_columns t = Some Columns /\
            t !! "CatalogId" = None /\
            t !! "DatabaseName" = None.
Proof.
  intros Hcat Hsd. unfold updated_table.
  destruct (Table !! "CatalogId") as [c|] eqn:Hc; [|done].
  rewrite lookup_delete_ne by done. rewrite Hsd.
  eexists. split; [reflexivity|]. unfold registered_columns, pop.
  repeat split.
  - rewrite !lookup_delete_ne by done. rewrite lookup_insert_eq.
    by rewrite lookup_insert_eq.
  - rewrite !lookup_delete_ne by done. rewrite lookup_insert_ne by done.
    apply lookup_delete_eq.
  - rewrite !lookup_delete_ne by done. apply lookup_delete_eq.
Qed.

End GlueFacts.

Example updated_table_example :
  exists t, Glue.updated_table Glue.crawled_table = Ok t /\
            Glue.registered_columns t = Some Glue.Columns.
Proof.
  destruct (updated_table_columns Glue.crawled_table
              (<["Location" := Glue.SText "s3://bucket/endtoendmlsm/data/raw/"]>
               (<["Columns" := Glue.SColumns [Glue.Column "col0" "string"]]> ∅)))
    as (t & Ht & Hc & _); [done|done|]. by exists t.
Qed.


Section ColumnShape.
Import Glue.

Lemma filter_all_true {A : Type} (f : A -> bool) (l : list A) :
  Forall (fun a => f a = true) l -> List.filter f l = l.
Proof. induction 1 as [|a l Ha _ IH]; simpl; [done|]. by rewrite Ha, IH. Qed.

Lemma doubles_at_least (cols sensors : list column) (pre post : list column) :
  cols = (pre ++ sensors ++ post)%list ->
  Forall (fun c => is_double c = true) sensors ->
  (length sensors <= length (List.filter is_double cols))%nat.
Proof.
  intros -> Hall. rewrite !List.filter_app, !length_app.
  rewrite (filter_all_true _ _ Hall). lia.
Qed.

End ColumnShape.

(** C1 as the specification words it fails on the code: the columns that
    the update registers for a crawled table are not an identifier, a type,
    nine double-typed measurements and a label. *)
Lemma registered_columns_not_nine_doubles :
  exists req cols,
    Glue.update_table Glue.crawled_table = Ok req /\
    Glue.registered_columns (Glue.TableInput req) = Some cols /\
    ~ (exists id ty sensors label,
          cols = (id :: ty :: sensors ++ [label])%list /\
          length sensors = 9%nat /\
          Forall (fun c => Glue.is_double c = true) sensors).
Proof.
  eexists _, Glue.Columns. split; [reflexivity|]. split; [done|].
  intros (id & ty & sensors & label & Heq & Hlen & Hall).
  pose proof (doubles_at_least Glue.Columns sensors [id; ty] [label] Heq Hall) as H.
  rewrite Hlen in H. vm_compute in H. lia.
Qed.

(** C1, amended.  For every table returned by [get_table] that has the
    [CatalogId] and [StorageDescriptor] entries, the update request goes to
    database [endtoendml-db] and registers exactly twelve columns: the
    identifier [turbine_id] and the categorical [turbine_type] (both
    string-typed), eight double-typed sensor measurements, the string-typed
    [wind_direction], and the string-typed label [breakdown]. *)
Theorem update_table_registers_twelve_columns
  (Table : gmap string Glue.tvalue) (sd : gmap string Glue.svalue)
  (Hcat : Table !! "CatalogId" <> None)
  (Hsd : Table !! "StorageDescriptor" = Some (Glue.TDict sd)) :
  exists req cols,
    Glue.update_table Table = Ok req /\
    Glue.DatabaseName req = "endtoendml-db" /\
    Glue.registered_columns (Glue.TableInput req) = Some cols /\
    length cols = 12%nat /\
    length (List.filter Glue.is_double cols) = 8%nat /\
    exists id ty sensors dir label,
      cols = (id :: ty :: sensors ++ [dir; label])%list /\
      id = Glue.Column "turbine_id" "string" /\
      ty = Glue.Column "turbine_type" "string" /\
      length sensors = 8%nat /\
      Forall (fun c => Glue.is_double c = true) sensors /\
      map Glue.Name sensors
      = ["wind_speed"; "rpm_blade"; "oil_temperature"; "oil_level";
         "temperature"; "humidity"; "vibrations_frequency"; "pressure"] /\
      dir = Glue.Column "wind_direction" "string" /\
      label = Glue.Column "breakdown" "string".
Proof.
  destruct (updated_table_columns Table sd Hcat Hsd) as (t & Ht & Hcols & _).
  unfold Glue.update_table. rewrite Ht. simpl.
  eexists _, Glue.Columns. repeat split; try done.
  eexists _, _, (take 8 (drop 2 Glue.Columns)), _, _.
  repeat split; try reflexivity.
  repeat constructor.
Qed.

Lemma update_table_registers_twelve_columns_witness :
  exists req cols,
    Glue.update_table Glue.crawled_table = Ok req /\
    Glue.registered_columns (Glue.TableInput req) = Some cols /\
    length cols = 12%nat.
Proof.
  destruct (update_table_registers_twelve_columns Glue.crawled_table
              (<["Location" := Glue.SText "s3://bucket/endtoendmlsm/data/raw/"]>
               (<["Columns" := Glue.SColumns [Glue.Column "col0" "string"]]> ∅)))
    as (req & cols & H1 & _ & H2 & H3 & _).
  - vm_compute. discriminate.
  - reflexivity.
  - exists req, cols. auto.
Defined.

(** ** The crawler polling loop *)

Section CrawlerFacts.
Import Crawler.
Variable TablesCreated : nat -> Z.

Lemma poll_stops (n : nat) : forall (fuel : nat) (st : state),
  (forall k, (k < n)%nat -> TablesCreated (calls st + k) = 0) ->
  TablesCreated (calls st + n) <> 0 ->
  (n < fuel)%nat ->
  poll fuel TablesCreated st
  = Some {| calls := S (calls st + n);
            printed := printed st ++ replicate n "RUNNING";
            slept := slept st + 15 * Z.of_nat n |}.
Proof.
  induction n as [|n IH]; intros [|fuel] st Hzero Hn Hfuel; try lia.
  - simpl. rewrite Nat.add_0_r in *.
    destruct (Z.eqb_spec (TablesCreated (calls st)) 0) as [|_]; [done|].
    f_equal. destruct st; simpl. f_equal; [by rewrite app_nil_r | lia].
  - simpl. pose proof (Hzero 0%nat ltac:(lia)) as H0.
    rewrite Nat.add_0_r in H0. rewrite H0. simpl.
    rewrite IH; simpl.
    + f_equal. f_equal; [lia | by rewrite <- app_assoc | lia].
    + intros k Hk. rewrite <- Nat.add_succ_r. apply Hzero. lia.
    + by rewrite <- Nat.add_succ_r.
    + lia.
Qed.

Lemma poll_running : forall (fuel : nat) (st : state),
  (forall k, (k < fuel)%nat -> TablesCreated (calls st + k) = 0) ->
  poll fuel TablesCreated st = None.
Proof.
  induction fuel as [|fuel IH]; intros st Hzero; [done|].
  simpl. pose proof (Hzero 0%nat ltac:(lia)) as H0.
  rewrite Nat.add_0_r in H0. rewrite H0. simpl.
  apply IH. intros k Hk. simpl.
  rewrite <- Nat.add_succ_r. apply Hzero. lia.
Qed.

End CrawlerFacts.

(** C2 as the specification words it fails on the code: against the
    service whose [TablesCreated] stays 0, the loop is still running after
    any number of polls; there is no timeout. *)
Lemma crawler_poll_never_stops_on_zero_tables :
  ~ (exists fuel st,
        Crawler.poll fuel (fun _ => 0) Crawler.init = Some st).
Proof. intros (fuel & st & Hst). by rewrite poll_running in Hst. Qed.

(** C2, amended.  The crawler loop polls again after a fixed 15-second
    sleep and stops exactly at the first poll that reports a non-zero
    [TablesCreated]: if that is poll number [n] (counting from 0), the loop
    stops after [n + 1] polls, having printed [RUNNING] and slept 15 seconds
    [n] times, and it is still running after any smaller number of polls.
    There is no timeout: while the service reports 0 the loop keeps
    running. *)
Theorem crawler_poll_stops_at_first_table
  (TablesCreated : nat -> Z) (n : nat)
  (Hzero : forall k, (k < n)%nat -> TablesCreated k = 0)
  (Hn : TablesCreated n <> 0) :
  (forall fuel, (n < fuel)%nat ->
     Crawler.poll fuel TablesCreated Crawler.init
     = Some (Crawler.stopped_after n)) /\
  (forall fuel, (fuel <= n)%nat ->
     Crawler.poll fuel TablesCreated Crawler.init = None) /\
  Crawler.slept (Crawler.stopped_after n) = 15 * Z.of_nat n /\
  (forall always_zero : nat -> Z,
     (forall k, always_zero k = 0) ->
     forall fuel, Crawler.poll fuel always_zero Crawler.init = None).
Proof.
  split; [|split; [|split]].
  - intros fuel Hfuel.
    by rewrite (poll_stops TablesCreated n fuel Crawler.init).
  - intros fuel Hfuel. apply poll_running. intros k Hk. apply Hzero. simpl. lia.
  - reflexivity.
  - intros z Hz fuel. apply poll_running. intros k _. apply Hz.
Qed.

Lemma crawler_poll_stops_at_first_table_witness :
  Crawler.poll 10 (fun k => if (k <? 3)%nat then 0 else 1) Crawler.init
  = Some (Crawler.stopped_after 3).
Proof.
  apply (crawler_poll_stops_at_first_table
           (fun k => if (k <? 3)%nat then 0 else 1) 3).
  - intros k Hk. apply Nat.ltb_lt in Hk. by rewrite Hk.
  - simpl. lia.
  - lia.
Defined.


(** ** The pipeline: hyperparameters *)

Example start_notebook_parameters :
  Workflow.start (Workflow.parameters "bucket")
    Workflow.notebook_start_parameters
  = Ok Workflow.notebook_start_parameters.
Proof. reflexivity. Qed.

Example start_unknown_parameter :
  Workflow.start (Workflow.parameters "bucket") {[ "depth" := Workflow.VStr "5" ]}
  = Raise ClientError.
Proof. reflexivity. Qed.

(** C3 as the specification words it fails on the code: the hyperparameters
    are pipeline parameters, and an execution started with another
    [max_depth] trains with that value. *)
Lemma hyperparameters_follow_start_parameters :
  exists given,
    Workflow.start (Workflow.parameters "bucket") given = Ok given /\
    Workflow.training_hyperparameters (Workflow.steps "bucket") given
      (Workflow.training_step "bucket")
    <> Workflow.training_hyperparameters (Workflow.steps "bucket")
         Workflow.notebook_start_parameters (Workflow.training_step "bucket") /\
    In ("max_depth", Some (Workflow.VStr "5"))
       (Workflow.training_hyperparameters (Workflow.steps "bucket") given
          (Workflow.training_step "bucket")).
Proof.
  exists {[ "max_depth" := Workflow.VStr "5" ]}.
  split; [reflexivity|]. split; [|by left].
  intros H. apply (f_equal (fun l => l !! 0%nat)) in H.
  vm_compute in H. discriminate.
Qed.

(** C3, amended.  The hyperparameters of the pipeline's training job are
    pipeline parameters whose defaults are the constants of the manual
    training notebook ([silent] is the literal 0).  An execution started
    without values for them, as the notebook's own [pipeline.start] call
    which gives only [train_test_split_ratio], trains with those constants;
    a value given at start for one of them is the value the job gets. *)
Theorem training_hyperparameters_default_unless_given
  (bucket_name : string) (given : gmap string Workflow.value) :
  (Forall (fun k => given !! k = None) Workflow.hyperparameter_names ->
   Workflow.training_hyperparameters (Workflow.steps bucket_name) given
     (Workflow.training_step bucket_name)
   = [ ("max_depth", Some (Workflow.VStr "3"));
       ("eta", Some (Workflow.VStr "0.1"));
       ("gamma", Some (Workflow.VStr "0"));
       ("min_child_weight", Some (Workflow.VStr "1"));
       ("silent", Some (Workflow.VInt 0));
       ("objective", Some (Workflow.VStr "binary:logistic"));
       ("num_round", Some (Workflow.VStr "10"));
       ("scale_pos_weight", Some (Workflow.VStr "6.32"));
       ("eval_metric", Some (Workflow.VStr "auc")) ]) /\
  Workflow.training_hyperparameters (Workflow.steps bucket_name)
    Workflow.notebook_start_parameters (Workflow.training_step bucket_name)
  = map (fun '(k, v) =>
           (k, Some (if String.eqb k "silent" then Workflow.VInt 0
                     else Workflow.VStr v)))
        Training.hyperparameters /\
  (forall k v, In k Workflow.hyperparameter_names -> given !! k = Some v ->
     In (k, Some v)
        (Workflow.training_hyperparameters (Workflow.steps bucket_name) given
           (Workflow.training_step bucket_name))).
Proof.
  split; [|split].
  - intros Hnone.
    repeat (apply Forall_cons in Hnone as [? Hnone]).
    unfold Workflow.training_hyperparameters, Workflow.training_step,
      Workflow.estimator, Workflow.hyperparameters at 1.
    cbn [map Workflow.arg_value].
    unfold Workflow.parameter_value, Workflow.max_depth_param,
      Workflow.eta_param, Workflow.gamma_param,
      Workflow.min_child_weight_param, Workflow.objective_param,
      Workflow.num_round_param, Workflow.scale_pos_weight_param,
      Workflow.eval_metric_param.
    cbn [Workflow.name Workflow.default_value].
    repeat match goal with H : given !! _ = None |- _ => rewrite H; clear H end.
    reflexivity.
  - reflexivity.
  - intros k v Hk Hv.
    unfold Workflow.training_hyperparameters, Workflow.training_step,
      Workflow.estimator, Workflow.hyperparameters at 1.
    cbn [map Workflow.arg_value].
    unfold Workflow.parameter_value, Workflow.max_depth_param,
      Workflow.eta_param, Workflow.gamma_param,
      Workflow.min_child_weight_param, Workflow.objective_param,
      Workflow.num_round_param, Workflow.scale_pos_weight_param,
      Workflow.eval_metric_param.
    cbn [Workflow.name Workflow.default_value].
    unfold Workflow.hyperparameter_names in Hk. simpl in Hk.
    repeat (destruct Hk as [<-|Hk]; [rewrite Hv; simpl; tauto|]).
    done.
Qed.

Lemma training_hyperparameters_default_unless_given_witness :
  Workflow.training_hyperparameters (Workflow.steps "bucket")
    Workflow.notebook_start_parameters (Workflow.training_step "bucket")
  = [ ("max_depth", Some (Workflow.VStr "3"));
      ("eta", Some (Workflow.VStr "0.1"));
      ("gamma", Some (Workflow.VStr "0"));
      ("min_child_weight", Some (Workflow.VStr "1"));
      ("silent", Some (Workflow.VInt 0));
      ("objective", Some (Workflow.VStr "binary:logistic"));
      ("num_round", Some (Workflow.VStr "10"));
      ("scale_pos_weight", Some (Workflow.VStr "6.32"));
      ("eval_metric", Some (Workflow.VStr "auc")) ] /\
  In ("eta", Some (Workflow.VStr "0.3"))
     (Workflow.training_hyperparameters (Workflow.steps "bucket")
        {[ "eta" := Workflow.VStr "0.3" ]} (Workflow.training_step "bucket")).
Proof.
  split.
  - destruct (training_hyperparameters_default_unless_given "bucket"
                Workflow.notebook_start_parameters) as (Hdefault & _ & _).
    apply Hdefault. repeat constructor.
  - destruct (training_hyperparameters_default_unless_given "bucket"
                {[ "eta" := Workflow.VStr "0.3" ]}) as (_ & _ & Hgiven).
    apply Hgiven; [simpl; tauto | reflexivity].
Defined.


(** ** The pipeline: order of the processing and training steps *)

Section ScheduleFacts.
Import Workflow.
Variable steps : list step.

Lemma schedule_ok_dependencies (pre : list event) :
  forall (started completed : list string) (n : string) (post : list event)
         (s : step) (d : string),
    schedule_ok steps started completed (pre ++ StepStarted n :: post) = true ->
    find_step steps n = Some s ->
    In d (depends_on s) ->
    d ∈ completed \/ In (StepCompleted d) pre.
Proof.
  induction pre as [|e pre IH]; intros started completed n post s d Hok Hs Hd.
  - left. simpl in Hok. rewrite Hs in Hok.
    apply andb_true_iff in Hok as [Hok _].
    apply andb_true_iff in Hok as [_ Hdeps].
    rewrite forallb_forall in Hdeps.
    specialize (Hdeps d Hd). by apply bool_decide_eq_true in Hdeps.
  - destruct e as [m|m]; simpl in Hok.
    + destruct (find_step steps m); [|done].
      apply andb_true_iff in Hok as [_ Hok].
      destruct (IH _ _ _ _ _ _ Hok Hs Hd) as [?|?]; [by left|right; by right].
    + apply andb_true_iff in Hok as [_ Hok].
      destruct (IH _ _ _ _ _ _ Hok Hs Hd) as [Hin|?]; [|right; by right].
      apply elem_of_cons in Hin as [->|?]; [right; by left|by left].
Qed.

End ScheduleFacts.

Example sequential_execution :
  Workflow.execution_trace
    (Workflow.definition "bucket" Workflow.repack_suffix Workflow.same_name)
    [ Workflow.StepStarted "Processing"; Workflow.StepCompleted "Processing";
      Workflow.StepStarted "Training";
      Workflow.StepStarted "RegisterFeaturizerModelRepackModel";
      Workflow.StepCompleted "Training";
      Workflow.StepStarted "RegisterXGBoostModelRepackModel";
      Workflow.StepCompleted "RegisterFeaturizerModelRepackModel";
      Workflow.StepStarted "RegisterFeaturizerModel";
      Workflow.StepCompleted "RegisterXGBoostModelRepackModel";
      Workflow.StepStarted "RegisterXGBoostModel";
      Workflow.StepCompleted "RegisterFeaturizerModel";
      Workflow.StepCompleted "RegisterXGBoostModel" ]
  = true.
Proof. reflexivity. Qed.

Example training_before_processing_refused :
  Workflow.execution_trace
    (Workflow.definition "bucket" Workflow.repack_suffix Workflow.same_name)
    [ Workflow.StepStarted "Training"; Workflow.StepStarted "Processing" ]
  = false.
Proof. reflexivity. Qed.

Example definition_has_six_steps :
  map Workflow.step_name_of
    (Workflow.definition "bucket" Workflow.repack_suffix Workflow.same_name)
  = [ "Processing"; "Training";
      "RegisterFeaturizerModelRepackModel"; "RegisterFeaturizerModel";
      "RegisterXGBoostModelRepackModel"; "RegisterXGBoostModel" ].
Proof. reflexivity. Qed.




(** ** The baseline files in storage *)

Section StorageFacts.
Import Storage.

Lemma append_assoc (s t u : string) : (s +:+ t) +:+ u = s +:+ t +:+ u.
Proof.
  induction s as [|a s IH]; [done|].
  change (String a ((s +:+ t) +:+ u) = String a (s +:+ t +:+ u)).
  by rewrite IH.
Qed.

Lemma s3_uri_inj (b x y : string) :
  "s3://" +:+ b +:+ x = "s3://" +:+ b +:+ y -> x = y.
Proof. intros H. by do 2 apply String.app_inj in H. Qed.

Variable bucket_name : string.

Lemma statistics_not_constraints :
  statistics_path bucket_name <> constraints_path bucket_name.
Proof. unfold statistics_path, constraints_path. by intros H%String.app_inj. Qed.

Lemma postprocessor_not_statistics :
  postprocessor_path bucket_name <> statistics_path bucket_name.
Proof.
  unfold postprocessor_path, statistics_path, baseline_results_path.
  rewrite !append_assoc. by intros H%s3_uri_inj.
Qed.

Lemma postprocessor_not_constraints :
  postprocessor_path bucket_name <> constraints_path bucket_name.
Proof.
  unfold postprocessor_path, constraints_path, baseline_results_path.
  rewrite !append_assoc. by intros H%s3_uri_inj.
Qed.

Lemma artifacts_not_written (k : string) :
  k = dataset_path bucket_name \/ k = sklearn_model_path bucket_name ->
  k <> statistics_path bucket_name /\ k <> constraints_path bucket_name /\
  k <> postprocessor_path bucket_name.
Proof.
  unfold dataset_path, sklearn_model_path, statistics_path, constraints_path,
    postprocessor_path, baseline_results_path.
  rewrite !append_assoc.
  intros [-> | ->]; repeat split; by intros H%s3_uri_inj.
Qed.

(** What each operation does to the store. *)
Lemma s3_cp_download_s3 uri file w :
  s3 (s3_cp_download uri file w) = s3 w /\
  s3_puts (s3_cp_download uri file w) = s3_puts w.
Proof. unfold s3_cp_download. by destruct (s3 w !! uri). Qed.

Lemma reorder_file_s3 file w w' :
  reorder_file file w = Ok w' -> s3 w' = s3 w /\ s3_puts w' = s3_puts w.
Proof.
  unfold reorder_file. destruct (files w !! file) as [[j|c]|]; try done.
  destruct (switch_target j); simpl; [|done]. by intros [= <-].
Qed.

Lemma s3_cp_upload_frame file uri w k :
  k <> uri -> s3 (s3_cp_upload file uri w) !! k = s3 w !! k.
Proof.
  intros Hk. unfold s3_cp_upload. destruct (files w !! file); [|done].
  simpl. by rewrite lookup_insert_ne.
Qed.

Lemma rewrite_baseline_frame w w' k :
  rewrite_baseline bucket_name w = Ok w' ->
  k <> statistics_path bucket_name -> k <> constraints_path bucket_name ->
  s3 w' !! k = s3 w !! k.
Proof.
  unfold rewrite_baseline. intros H Hs Hc.
  set (w1 := s3_cp_download _ _ w) in H.
  set (w2 := s3_cp_download _ _ w1) in H.
  destruct (reorder_file "baseline/statistics.json" w2) as [w3|] eqn:H3;
    simpl in H; [|done].
  set (w4 := s3_cp_upload _ _ w3) in H.
  destruct (reorder_file "baseline/constraints.json" w4) as [w5|] eqn:H5;
    simpl in H; [|done].
  injection H as <-.
  rewrite s3_cp_upload_frame by done.
  apply reorder_file_s3 in H5 as [-> _]. subst w4.
  rewrite s3_cp_upload_frame by done.
  apply reorder_file_s3 in H3 as [-> _]. subst w2 w1.
  destruct (s3_cp_download_s3 (constraints_path bucket_name)
              "baseline/constraints.json"
              (s3_cp_download (statistics_path bucket_name)
                 "baseline/statistics.json" w)) as [-> _].
  by destruct (s3_cp_download_s3 (statistics_path bucket_name)
                 "baseline/statistics.json" w) as [-> _].
Qed.

Lemma switch_target_features fields xs x :
  lookup_field "features" fields = Some (JList (xs ++ [x])) ->
  switch_target (JObj fields)
  = Ok (JObj (update_field "features" (JList (x :: xs)) fields)).
Proof. intros H. unfold switch_target. rewrite H. by rewrite reorder_snoc. Qed.

Lemma s3_cp_download_found uri file w o :
  s3 w !! uri = Some o ->
  s3_cp_download uri file w
  = {| s3 := s3 w; files := <[file := o]> (files w); s3_puts := s3_puts w |}.
Proof. intros H. unfold s3_cp_download. by rewrite H. Qed.

Lemma s3_cp_upload_found file uri w o :
  files w !! file = Some o ->
  s3_cp_upload file uri w
  = {| s3 := <[uri := o]> (s3 w); files := files w;
       s3_puts := (s3_puts w ++ [uri])%list |}.
Proof. intros H. unfold s3_cp_upload. by rewrite H. Qed.

Lemma reorder_file_found file w fields xs x :
  files w !! file = Some (Json (JObj fields)) ->
  lookup_field "features" fields = Some (JList (xs ++ [x])) ->
  reorder_file file w
  = Ok {| s3 := s3 w;
          files := <[file := Json (JObj (update_field "features"
                                           (JList (x :: xs)) fields))]> (files w);
          s3_puts := s3_puts w |}.
Proof.
  intros Hf Hfs. unfold reorder_file. rewrite Hf.
  by rewrite (switch_target_features _ _ _ Hfs).
Qed.

Lemma rewrite_baseline_result w sfields sxs sx cfields cxs cx :
  s3 w !! statistics_path bucket_name = Some (Json (JObj sfields)) ->
  lookup_field "features" sfields = Some (JList (sxs ++ [sx])) ->
  s3 w !! constraints_path bucket_name = Some (Json (JObj cfields)) ->
  lookup_field "features" cfields = Some (JList (cxs ++ [cx])) ->
  exists w',
    rewrite_baseline bucket_name w = Ok w' /\
    s3 w' !! statistics_path bucket_name
    = Some (Json (JObj (update_field "features" (JList (sx :: sxs)) sfields))) /\
    s3 w' !! constraints_path bucket_name
    = Some (Json (JObj (update_field "features" (JList (cx :: cxs)) cfields))) /\
    s3_puts w'
    = (s3_puts w ++ [statistics_path bucket_name; constraints_path bucket_name])%list /\
    files w' !! "postprocessor.py" = files w !! "postprocessor.py".
Proof.
  intros Hs Hsf Hc Hcf. unfold rewrite_baseline. cbv zeta.
  rewrite (s3_cp_download_found _ "baseline/statistics.json" w _ Hs).
  erewrite (s3_cp_download_found (constraints_path bucket_name));
    [|exact Hc].
  erewrite (reorder_file_found "baseline/statistics.json");
    [| cbn [files]; rewrite lookup_insert_ne by done; apply lookup_insert_eq
     | exact Hsf].
  cbn [bind s3 files s3_puts].
  erewrite (s3_cp_upload_found "baseline/statistics.json");
    [| cbn [files]; apply lookup_insert_eq].
  cbn [s3 files s3_puts].
  erewrite (reorder_file_found "baseline/constraints.json");
    [| cbn [files]; rewrite lookup_insert_ne by done; apply lookup_insert_eq
     | exact Hcf].
  cbn [bind s3 files s3_puts].
  erewrite (s3_cp_upload_found "baseline/constraints.json");
    [| cbn [files]; apply lookup_insert_eq].
  eexists. split; [reflexivity|]. cbn [s3 s3_puts files].
  split; [|split; [|split]].
  - rewrite lookup_insert_ne by (apply not_eq_sym, statistics_not_constraints).
    apply lookup_insert_eq.
  - apply lookup_insert_eq.
  - by rewrite <- app_assoc.
  - by rewrite !lookup_insert_ne by done.
Qed.

End StorageFacts.

Example rewrite_after_baselining :
  exists w',
    Storage.later_writes "bucket" Storage.after_baselining = Ok w' /\
    Storage.s3_puts w'
    = [ Storage.statistics_path "bucket"; Storage.constraints_path "bucket";
        Storage.postprocessor_path "bucket" ].
Proof.
  destruct (rewrite_baseline_result "bucket" Storage.after_baselining
              _ [_] _ _ [_] _ eq_refl eq_refl eq_refl eq_refl)
    as (w1 & Hw1 & _ & _ & Hputs & Hfile).
  unfold Storage.later_writes. rewrite Hw1. simpl.
  unfold Storage.upload_file. rewrite Hfile.
  eexists. split; [reflexivity|]. simpl. by rewrite Hputs.
Qed.


(** C5 as the specification words it fails on the code: after the
    baselining job has produced them, the statistics file is written again
    at its own location, with another content. *)
Lemma baseline_statistics_overwritten :
  exists w',
    Storage.later_writes "bucket" Storage.after_baselining = Ok w' /\
    Storage.s3 w' !! Storage.statistics_path "bucket"
    <> Storage.s3 Storage.after_baselining !! Storage.statistics_path "bucket" /\
    In (Storage.statistics_path "bucket") (Storage.s3_puts w').
Proof.
  destruct (rewrite_baseline_result "bucket" Storage.after_baselining
              _ [_] _ _ [_] _ eq_refl eq_refl eq_refl eq_refl)
    as (w1 & Hw1 & Hstat & _ & Hputs & Hfile).
  unfold Storage.later_writes. rewrite Hw1. simpl.
  unfold Storage.upload_file. rewrite Hfile.
  eexists. split; [reflexivity|]. cbn [Storage.s3 Storage.s3_puts].
  split.
  - rewrite lookup_insert_ne by apply postprocessor_not_statistics.
    rewrite Hstat. intros H. vm_compute in H. discriminate.
  - rewrite Hputs. simpl. tauto.
Qed.

(** C5, amended.  The cells of the deployment notebook that write to
    storage after the baselining job leave every stored object other than
    the baseline statistics, the baseline constraints and the
    post-processing script as it was; in particular the raw dataset and the
    fitted encoder are not written.  The baseline statistics and
    constraints are rewritten in place: each is downloaded, the last entry
    of its ['features'] list is moved to the front, and the result is
    uploaded to the location it came from. *)
Theorem baseline_files_rewritten_in_place
  (bucket_name : string) (w : Storage.world)
  (sfields cfields : list (string * Storage.json))
  (sxs cxs : list Storage.json) (sx cx : Storage.json) (script : Storage.object)
  (Hs : Storage.s3 w !! Storage.statistics_path bucket_name
        = Some (Storage.Json (Storage.JObj sfields)))
  (Hsf : Storage.lookup_field "features" sfields
         = Some (Storage.JList (sxs ++ [sx])))
  (Hc : Storage.s3 w !! Storage.constraints_path bucket_name
        = Some (Storage.Json (Storage.JObj cfields)))
  (Hcf : Storage.lookup_field "features" cfields
         = Some (Storage.JList (cxs ++ [cx])))
  (Hscript : Storage.files w !! "postprocessor.py" = Some script) :
  exists w',
    Storage.later_writes bucket_name w = Ok w' /\
    Storage.s3 w' !! Storage.statistics_path bucket_name
    = Some (Storage.Json (Storage.JObj
              (Storage.update_field "features" (Storage.JList (sx :: sxs)) sfields))) /\
    Storage.s3 w' !! Storage.constraints_path bucket_name
    = Some (Storage.Json (Storage.JObj
              (Storage.update_field "features" (Storage.JList (cx :: cxs)) cfields))) /\
    Storage.s3_puts w'
    = (Storage.s3_puts w
       ++ [ Storage.statistics_path bucket_name;
            Storage.constraints_path bucket_name;
            Storage.postprocessor_path bucket_name ])%list /\
    (forall k,
        k <> Storage.statistics_path bucket_name ->
        k <> Storage.constraints_path bucket_name ->
        k <> Storage.postprocessor_path bucket_name ->
        Storage.s3 w' !! k = Storage.s3 w !! k) /\
    Storage.s3 w' !! Storage.dataset_path bucket_name
    = Storage.s3 w !! Storage.dataset_path bucket_name /\
    Storage.s3 w' !! Storage.sklearn_model_path bucket_name
    = Storage.s3 w !! Storage.sklearn_model_path bucket_name.
Proof.
  destruct (rewrite_baseline_result bucket_name w _ _ _ _ _ _ Hs Hsf Hc Hcf)
    as (w1 & Hw1 & Hstat & Hcons & Hputs & Hfile).
  unfold Storage.later_writes. rewrite Hw1. cbn [bind].
  unfold Storage.upload_file. rewrite Hfile, Hscript.
  eexists. split; [reflexivity|]. cbn [Storage.s3 Storage.s3_puts].
  assert (Hframe : forall k,
             k <> Storage.statistics_path bucket_name ->
             k <> Storage.constraints_path bucket_name ->
             k <> Storage.postprocessor_path bucket_name ->
             <[Storage.postprocessor_path bucket_name := script]> (Storage.s3 w1) !! k
             = Storage.s3 w !! k).
  { intros k H1 H2 H3. rewrite lookup_insert_ne by done.
    by apply (rewrite_baseline_frame bucket_name). }
  split; [|split; [|split; [|split; [|split]]]].
  - rewrite lookup_insert_ne by apply postprocessor_not_statistics. exact Hstat.
  - rewrite lookup_insert_ne by apply postprocessor_not_constraints. exact Hcons.
  - rewrite Hputs. by rewrite <- app_assoc.
  - exact Hframe.
  - destruct (artifacts_not_written bucket_name (Storage.dataset_path bucket_name))
      as (? & ? & ?); [by left|]. by apply Hframe.
  - destruct (artifacts_not_written bucket_name (Storage.sklearn_model_path bucket_name))
      as (? & ? & ?); [by right|]. by apply Hframe.
Qed.

Lemma baseline_files_rewritten_in_place_witness :
  exists w',
    Storage.later_writes "bucket" Storage.after_baselining = Ok w' /\
    Storage.s3 w' !! Storage.dataset_path "bucket"
    = Some (Storage.Blob "turbine_id,turbine_type,...").
Proof.
  destruct (baseline_files_rewritten_in_place "bucket" Storage.after_baselining
              _ _ [_] [_] _ _ _ eq_refl eq_refl eq_refl eq_refl eq_refl)
    as (w' & Hrun & _ & _ & _ & _ & Hdata & _).
  exists w'. split; [exact Hrun|]. rewrite Hdata. reflexivity.
Defined.


(** ** Exceptions in the code cells *)

Section ExecFacts.
Import Notebook.




Variables (o o' : oracle) (k : nat) (e : exn).
Hypothesis Hsame : forall j, (j < k)%nat -> raises o' j = raises o j.
Hypothesis Hraise : raises o' k = Some e.
Hypothesis Hholds : forall j, holds o' j = holds o j.
Hypothesis Hitems : forall j, items o' j = items o j.



End ExecFacts.

Section CellFacts.
Import Notebook.



End CellFacts.


Example reports_listing_without_failure :
  Notebook.exec 8 Notebook.quiet
    (Notebook.body Notebook.monitoring_reports_cell) Notebook.start
  = Some (Notebook.Normal,
          {| Notebook.evaluations := 6;
             Notebook.executed := [772; 773; 775; 776; 777; 778; 779]%nat |}).
Proof. reflexivity. Qed.





(** ** Removal operations in the code cells *)

Example method_name_examples :
  Notebook.method_name "boto3.Session().client" = "client" /\
  Notebook.method_name "print" = "print" /\
  Notebook.removes "predictor.delete_endpoint" = true /\
  Notebook.removes "cleanup_glue_resources" = true /\
  Notebook.removes "updated_table.pop" = false.
Proof. by repeat split. Qed.

(** C7 as the specification words it fails on the code: the workflow
    notebook ends with [predictor.delete_endpoint()] (line 787), a removal
    of a remote resource that is not a monitoring schedule. *)
Lemma workflow_deletes_endpoint :
  In ("07_workflow", (787%nat, "predictor.delete_endpoint")) Notebook.all_calls /\
  Notebook.removes "predictor.delete_endpoint" = true /\
  Notebook.method_name "predictor.delete_endpoint" = "delete_endpoint" /\
  ~ (forall c, In c Notebook.all_calls ->
               Notebook.removes (snd (snd c)) = true ->
               Notebook.method_name (snd (snd c)) = "delete_monitoring_schedule").
Proof.
  assert (Hin : In ("07_workflow", (787%nat, "predictor.delete_endpoint"))
                   Notebook.removals) by (vm_compute; tauto).
  apply List.filter_In in Hin as [Hin Hrem].
  split; [exact Hin|]. split; [reflexivity|]. split; [reflexivity|].
  intros H. specialize (H _ Hin Hrem). vm_compute in H. discriminate.
Qed.

Example shell_commands_are_the_shell_lines :
  map (fun c => (fst c, fst (snd c))) Notebook.shell_commands
  ≡ₚ Notebook.all_shells.
Proof.
  apply (bool_decide_unpack _). by vm_compute.
Qed.

(** C7, amended.  The code cells make three calls that remove or cancel a
    remote resource (a client method named [delete...], [cancel...] or
    [stop...], or the helper that removes the Glue resources):
    [cleanup_glue_resources()] in the data notebook (line 116),
    [delete_monitoring_schedule] on the monitor in the deployment notebook
    (line 710) and [delete_endpoint] on the predictor at the end of the
    workflow notebook (line 787).  No cell calls [delete_model], and the
    deployment notebook deletes no endpoint.  The shell lines of the cells
    run [pip install], [pygmentize], [tar], [head] and [aws s3 cp], and no
    other [aws] command. *)
Theorem removals_are_glue_cleanup_schedule_and_endpoint :
  Notebook.removals
  = [ ("02_data_exploration_and_feature_eng",
       (116%nat, "cleanup_glue_resources"));
      ("04_deploy_model", (710%nat, "my_default_monitor.delete_monitoring_schedule"));
      ("07_workflow", (787%nat, "predictor.delete_endpoint")) ] /\
  (forall c, In c Notebook.all_calls ->
             Notebook.method_name (snd (snd c)) <> "delete_model") /\
  (forall c, In c Notebook.all_calls -> fst c = "04_deploy_model" ->
             Notebook.method_name (snd (snd c)) <> "delete_endpoint") /\
  (forall c, In c Notebook.shell_commands ->
             In (snd (snd c))
                [ "{sys.executable} -m pip install"; "pip install";
                  "pygmentize"; "tar"; "head"; "aws s3 cp" ]).
Proof.
  split; [by vm_compute|]. split; [|split].
  - assert (H : forallb (fun c => negb (String.eqb
                           (Notebook.method_name (snd (snd c))) "delete_model"))
                        Notebook.all_calls = true) by (by vm_compute).
    rewrite forallb_forall in H. intros c Hc Heq. specialize (H c Hc).
    rewrite Heq in H. discriminate.
  - assert (H : forallb (fun c => negb (String.eqb (fst c) "04_deploy_model"
                           && String.eqb (Notebook.method_name (snd (snd c)))
                                "delete_endpoint"))
                        Notebook.all_calls = true) by (by vm_compute).
    rewrite forallb_forall in H. intros c Hc Hnb Heq. specialize (H c Hc).
    rewrite Hnb, Heq in H. discriminate.
  - assert (H : forallb (fun c => bool_decide
                           (snd (snd c) ∈
                              [ "{sys.executable} -m pip install"; "pip install";
                                "pygmentize"; "tar"; "head"; "aws s3 cp" ]))
                        Notebook.shell_commands = true) by (by vm_compute).
    rewrite forallb_forall in H. intros c Hc. specialize (H c Hc).
    apply bool_decide_eq_true in H. by apply list_elem_of_In.
Qed.


(** * Further properties of the notebook code *)

(** ** The version gate on malformed and padded versions *)

Section VersionEdgeFacts.
Import Version.

Lemma int_empty : int EmptyString = Raise ValueError.
Proof. reflexivity. Qed.

Lemma int_raises_value_error s e : int s = Raise e -> e = ValueError.
Proof.
  unfold int. destruct (strip s) as [|a t].
  - simpl. by intros [= <-].
  - destruct a as [[] [] [] [] [] [] [] []];
      match goal with
      | |- context [int_body 0 false ?u] => destruct (int_body 0 false u)
      end; by intros [= <-].
Qed.

Lemma map_int_raises (l : list string) (x : string) :
  In x l -> int x = Raise ValueError -> map_result int l = Raise ValueError.
Proof.
  induction l as [|y l IH]; [done|]. intros [->|Hin] Hx; simpl.
  - by rewrite Hx.
  - destruct (int y) as [n|e] eqn:Hy; simpl.
    + by rewrite IH.
    + by rewrite (int_raises_value_error y e Hy).
Qed.

Lemma in_lstrip c s :
  In c (list_ascii_of_string s) -> is_space c = false ->
  In c (list_ascii_of_string (lstrip s)).
Proof.
  induction s as [|a s IH]; [done|]. intros Hin Hc. simpl.
  destruct (is_space a) eqn:Ha; [|done].
  destruct Hin as [->|Hin]; [congruence|]. by apply IH.
Qed.

Lemma in_rstrip c s :
  In c (list_ascii_of_string s) -> is_space c = false ->
  In c (list_ascii_of_string (rstrip s)).
Proof.
  induction s as [|a s IH]; [done|]. intros Hin Hc. simpl.
  destruct Hin as [->|Hin].
  - destruct (rstrip s); [rewrite Hc|]; by left.
  - specialize (IH Hin Hc). destruct (rstrip s) as [|b r]; [done|].
    by right.
Qed.

Lemma int_body_stray c s : forall acc prev,
  In c (list_ascii_of_string s) ->
  digit_value c = None -> c <> "_"%char ->
  int_body acc prev s = None.
Proof.
  induction s as [|a s IH]; intros acc prev Hin Hd Hu; [done|]. simpl.
  destruct Hin as [->|Hin].
  - rewrite Hd. by apply Ascii.eqb_neq in Hu as ->.
  - destruct (digit_value a); [by apply IH|].
    destruct (Ascii.eqb a "_" && prev); [by apply IH|done].
Qed.

Lemma int_stray c s :
  In c (list_ascii_of_string s) ->
  digit_value c = None -> is_space c = false ->
  c <> "_"%char -> c <> "+"%char -> c <> "-"%char ->
  int s = Raise ValueError.
Proof.
  intros Hin Hd Hs Hu Hp Hm.
  assert (Hstrip : In c (list_ascii_of_string (strip s)))
    by (by apply in_rstrip; [apply in_lstrip|]).
  unfold int. destruct (strip s) as [|a t]; [done|].
  assert (Hwhole : int_body 0 false (String a t) = None)
    by (by apply (int_body_stray c)).
  assert (Htail : a = "+"%char \/ a = "-"%char -> int_body 0 false t = None).
  { intros Ha. apply (int_body_stray c); try done.
    destruct Hstrip as [<-|?]; [|done]. by destruct Ha. }
  destruct a as [[] [] [] [] [] [] [] []];
    first [ by rewrite Hwhole | rewrite Htail; [done|tauto] ].
Qed.

Lemma tuple_lt_irrefl a : tuple_lt a a = false.
Proof. induction a as [|x a IH]; [done|]. simpl. by rewrite Z.eqb_refl. Qed.

Lemma tuple_lt_trans a : forall b c,
  tuple_lt a b = true -> tuple_lt b c = true -> tuple_lt a c = true.
Proof.
  induction a as [|x a IH]; intros [|y b] [|z c] Hab Hbc; simpl in *; try done.
  destruct (Z.eqb_spec x y) as [->|Hxy].
  - destruct (Z.eqb_spec y z) as [_|_]; [by apply (IH b)|done].
  - destruct (Z.eqb_spec y z) as [->|Hyz].
    + by destruct (Z.eqb_spec x z).
    + apply Z.ltb_lt in Hab. apply Z.ltb_lt in Hbc.
      destruct (Z.eqb_spec x z); [lia|]. apply Z.ltb_lt. lia.
Qed.

Lemma tuple_lt_total a : forall b,
  tuple_lt a b = false -> tuple_lt b a = false -> a = b.
Proof.
  induction a as [|x a IH]; intros [|y b] Hab Hba; simpl in *; try done.
  destruct (Z.eqb_spec x y) as [->|Hxy].
  - rewrite Z.eqb_refl in Hba. f_equal. by apply IH.
  - destruct (Z.eqb_spec y x); [congruence|].
    apply Z.ltb_ge in Hab. apply Z.ltb_ge in Hba. lia.
Qed.

Lemma numeral_value_zero s : numeral_value (String "0" s) = numeral_value s.
Proof. simpl. unfold id. lia. Qed.

Lemma decimal_zero s : decimal s -> decimal (String "0" s).
Proof.
  intros [_ Hs]. split; [done|]. intros c [<-|Hc]; [by eexists|by apply Hs].
Qed.

Lemma numeral_value_zeros k s : numeral_value (zeros k s) = numeral_value s.
Proof.
  induction k as [|k IH]; [done|].
  change (zeros (S k) s) with (String "0" (zeros k s)).
  by rewrite numeral_value_zero.
Qed.

Lemma decimal_zeros k s : decimal s -> decimal (zeros k s).
Proof.
  intros Hs. induction k as [|k IH]; [done|]. by apply decimal_zero.
Qed.

(** The white space that [int] strips, below 256. *)
Example int_white_space :
  int (String "4" (String "6" (String (ascii_of_nat 160) ""))) = Ok 46 /\
  int (String (ascii_of_nat 133) "46") = Ok 46 /\
  int (String (ascii_of_nat 28) "46") = Raise ValueError /\
  int (String "4" (String (ascii_of_nat 160) "6")) = Raise ValueError /\
  filter is_space (map ascii_of_nat (seq 0 256))
  = map ascii_of_nat [9; 10; 11; 12; 13; 32; 133; 160]%nat.
Proof. by vm_compute. Qed.

End VersionEdgeFacts.

(** X1. A version string with an empty component (a leading or trailing
    dot, two dots in a row, the empty string) makes [versiontuple], and with
    it the gate, raise [ValueError]. *)
Theorem versiontuple_empty_component (v : string)
  (Hempty : In EmptyString (Version.split "." v)) :
  Version.versiontuple v = Raise ValueError /\
  Version.upgrade_branch_taken v = Raise ValueError.
Proof.
  assert (H : Version.versiontuple v = Raise ValueError)
    by (by apply (map_int_raises _ EmptyString)).
  split; [done|]. unfold Version.upgrade_branch_taken. by rewrite H.
Qed.

Lemma versiontuple_empty_component_witness :
  Version.versiontuple "2.46." = Raise ValueError /\
  Version.upgrade_branch_taken "2.46." = Raise ValueError.
Proof. apply (versiontuple_empty_component "2.46."). in_list. Defined.

(** X2. A version string of code points below 256 one of whose components
    holds a character that is neither a digit [0] to [9], nor white space
    that [int] strips (tab to carriage return, space, next line, no-break
    space), nor a sign, nor an underscore (a pre-release tag such as [rc1]
    or [dev0]) makes [versiontuple], and with it the gate, raise
    [ValueError]. *)
Theorem versiontuple_stray_character (v component : string) (c : ascii)
  (Hcomponent : In component (Version.split "." v))
  (Hc : In c (list_ascii_of_string component))
  (Hdigit : Version.digit_value c = None)
  (Hspace : Version.is_space c = false)
  (Hunderscore : c <> "_"%char) (Hplus : c <> "+"%char) (Hminus : c <> "-"%char) :
  Version.versiontuple v = Raise ValueError /\
  Version.upgrade_branch_taken v = Raise ValueError.
Proof.
  assert (H : Version.versiontuple v = Raise ValueError).
  { apply (map_int_raises _ component); [done|]. by apply (int_stray c). }
  split; [done|]. unfold Version.upgrade_branch_taken. by rewrite H.
Qed.

Lemma versiontuple_stray_character_witness :
  Version.versiontuple "2.47.0.dev0" = Raise ValueError /\
  Version.upgrade_branch_taken "2.47.0.dev0" = Raise ValueError.
Proof.
  apply (versiontuple_stray_character "2.47.0.dev0" "dev0" "d"); try done.
  - in_list.
  - in_list.
Defined.

(** X3. The comparison the gate uses is a strict total order on version
    tuples: no tuple is below itself, the comparison is transitive, and two
    tuples neither of which is below the other are equal. *)
Theorem tuple_lt_strict_total_order (a b c : list Z) :
  Version.tuple_lt a a = false /\
  (Version.tuple_lt a b = true -> Version.tuple_lt b c = true ->
   Version.tuple_lt a c = true) /\
  (Version.tuple_lt a b = false -> Version.tuple_lt b a = false -> a = b).
Proof.
  split; [apply tuple_lt_irrefl|]. split; [apply tuple_lt_trans|].
  apply tuple_lt_total.
Qed.

(** X4. Leading zeros do not matter: writing any components of a
    dot-separated decimal version with any number of leading zeros more
    ([02.46.0], [2.046.00]) gives the same tuple and the same decision of
    the gate. *)
Theorem versiontuple_ignores_leading_zeros (components : list (nat * string))
  (Hnonempty : components <> [])
  (Hdecimal : Forall Version.decimal (map snd components)) :
  Version.versiontuple
    (Version.dotted (map (fun c => Version.zeros (fst c) (snd c)) components))
  = Version.versiontuple (Version.dotted (map snd components)) /\
  Version.upgrade_branch_taken
    (Version.dotted (map (fun c => Version.zeros (fst c) (snd c)) components))
  = Version.upgrade_branch_taken (Version.dotted (map snd components)).
Proof.
  assert (H : Version.versiontuple
                (Version.dotted
                   (map (fun c => Version.zeros (fst c) (snd c)) components))
              = Version.versiontuple (Version.dotted (map snd components))).
  { assert (Hne : map (fun c => Version.zeros (fst c) (snd c)) components <> [])
      by (by destruct components).
    assert (Hne' : map snd components <> []) by (by destruct components).
    assert (Hdec : Forall Version.decimal
                     (map (fun c => Version.zeros (fst c) (snd c)) components)).
    { apply Forall_map.
      eapply Forall_impl; [exact (proj1 (Forall_map _ _ _) Hdecimal)|].
      intros c Hc. by apply decimal_zeros. }
    rewrite (versiontuple_dotted _ Hne Hdec).
    rewrite (versiontuple_dotted _ Hne' Hdecimal).
    f_equal. rewrite !map_map. apply map_ext. intros c.
    apply numeral_value_zeros. }
  split; [done|]. unfold Version.upgrade_branch_taken. by rewrite H.
Qed.

Lemma versiontuple_ignores_leading_zeros_witness :
  Version.versiontuple "02.46.000" = Version.versiontuple "2.46.0".
Proof.
  apply (versiontuple_ignores_leading_zeros
           [(1%nat, "2"); (0%nat, "46"); (2%nat, "0")]); [done|].
  repeat constructor; try done;
    intros c Hc; simpl in Hc;
    repeat (destruct Hc as [<-|Hc]; [by eexists|]); done.
Defined.

(** ** Re-running the reordering cell *)

Section RerunFacts.
Context {A : Type}.

Lemma reorder_times_rotate (ys : list A) : forall xs,
  Rerun.reorder_times (length ys) (xs ++ ys) = Ok (ys ++ xs)%list.
Proof.
  induction ys as [|y ys IH] using rev_ind; intros xs.
  - simpl. by rewrite app_nil_r.
  - rewrite length_app, Nat.add_comm. simpl.
    rewrite app_assoc, reorder_snoc. simpl.
    change (y :: xs ++ ys)%list with ((y :: xs) ++ ys)%list.
    rewrite IH. by rewrite <- app_assoc.
Qed.

End RerunFacts.

(** X5. Running the reordering cell [k] times moves the last [k] features
    to the front, in their order: the cell is a rotation, not an idempotent
    fix.  After as many runs as there are features the list is back in its
    original order; when the features are pairwise different, no smaller
    positive number of runs gives the original order back (with repeated
    features it can: two runs on [a; b; a; b]).  On an empty list every run
    raises [IndexError]. *)
Theorem reordering_cell_rotates {A : Type} (xs ys : list A) :
  Rerun.reorder_times (length ys) (xs ++ ys) = Ok (ys ++ xs)%list /\
  Rerun.reorder_times (length (xs ++ ys)) (xs ++ ys) = Ok (xs ++ ys)%list /\
  (NoDup (xs ++ ys) -> xs <> [] -> ys <> [] ->
   Rerun.reorder_times (length ys) (xs ++ ys) <> Ok (xs ++ ys)%list) /\
  (forall a b : A,
      Rerun.reorder_times 2 [a; b; a; b] = Ok [a; b; a; b]) /\
  (forall y z : A,
      y <> z ->
      Rerun.reorder_times 2 (xs ++ [y; z]) <> Rerun.reorder_times 1 (xs ++ [y; z])) /\
  (forall n, Rerun.reorder_times (S n) (@nil A) = Raise IndexError).
Proof.
  split; [apply reorder_times_rotate|]. split; [|split; [|split; [|split]]].
  - pose proof (reorder_times_rotate (xs ++ ys) []) as H.
    by rewrite app_nil_r in H.
  - intros Hnodup Hxs Hys. rewrite reorder_times_rotate. intros [= Heq].
    destruct xs as [|x xs']; [done|]. destruct ys as [|y ys']; [done|].
    simpl in Heq. injection Heq as -> _.
    simpl in Hnodup. apply NoDup_cons in Hnodup as [Hfresh _].
    apply Hfresh. apply elem_of_app. right. by left.
  - intros a b. apply (reorder_times_rotate [a; b] [a; b]).
  - intros y z Hyz.
    pose proof (reorder_times_rotate [y; z] xs) as H2.
    pose proof (reorder_times_rotate [z] (xs ++ [y])) as H1.
    rewrite <- app_assoc in H1. cbn [length] in H1, H2.
    change ([y] ++ [z])%list with [y; z] in H1.
    rewrite H1, H2. simpl. intros [= Heq _]. done.
  - intros n. cbn [Rerun.reorder_times]. by rewrite reorder_nil.
Qed.


(** ** The baseline documents: what the rewrite keeps *)

Section DocumentFacts.
Import Storage.

Lemma update_field_keys k v fields :
  map fst (update_field k v fields) = map fst fields.
Proof.
  induction fields as [|[k' v'] fields IH]; [done|]. simpl.
  destruct (String.eqb k' k); simpl; [done|]. by rewrite IH.
Qed.

Lemma lookup_update_field_ne k k' v fields :
  k' <> k -> lookup_field k' (update_field k v fields) = lookup_field k' fields.
Proof.
  intros Hne. induction fields as [|[k0 v0] fields IH]; [done|]. simpl.
  destruct (String.eqb_spec k0 k) as [->|Hk0]; simpl.
  - destruct (String.eqb_spec k k'); [congruence|done].
  - by rewrite IH.
Qed.

Lemma lookup_update_field_eq k v v0 fields :
  lookup_field k fields = Some v0 ->
  lookup_field k (update_field k v fields) = Some v.
Proof.
  induction fields as [|[k0 v1] fields IH]; [done|]. simpl.
  destruct (String.eqb_spec k0 k) as [->|Hk0]; simpl.
  - by rewrite String.eqb_refl.
  - destruct (String.eqb_spec k0 k); [done|]. apply IH.
Qed.

Lemma update_field_twice k v v' fields :
  update_field k v' (update_field k v fields) = update_field k v' fields.
Proof.
  induction fields as [|[k0 v0] fields IH]; [done|]. simpl.
  destruct (String.eqb_spec k0 k) as [->|Hk0]; simpl.
  - by rewrite String.eqb_refl.
  - destruct (String.eqb_spec k0 k); [done|]. by rewrite IH.
Qed.

End DocumentFacts.

(** X6. On a document whose ['features'] entry is a non-empty list, the
    two reordering statements change that entry only: the document keeps
    its keys in their order and every other entry as it was, and the new
    ['features'] list has the entries of the old one. *)
Theorem switch_target_keeps_document
  (fields : list (string * Storage.json)) (xs : list Storage.json)
  (x : Storage.json)
  (Hfeatures : Storage.lookup_field "features" fields
               = Some (Storage.JList (xs ++ [x]))) :
  exists fields',
    Storage.switch_target (Storage.JObj fields) = Ok (Storage.JObj fields') /\
    map fst fields' = map fst fields /\
    (forall k, k <> "features" ->
               Storage.lookup_field k fields' = Storage.lookup_field k fields) /\
    Storage.lookup_field "features" fields' = Some (Storage.JList (x :: xs)) /\
    (x :: xs ≡ₚ xs ++ [x])%list.
Proof.
  eexists. split; [by apply switch_target_features|].
  split; [apply update_field_keys|].
  split; [intros k Hk; by apply lookup_update_field_ne|].
  split; [by eapply lookup_update_field_eq|].
  by rewrite Permutation_app_comm.
Qed.

Lemma switch_target_keeps_document_witness :
  exists fields',
    Storage.switch_target (Storage.two_features "inferred_type")
    = Ok (Storage.JObj fields') /\
    map fst fields' = ["version"; "features"] /\
    Storage.lookup_field "version" fields' = Some (Storage.JNum "0").
Proof.
  destruct (switch_target_keeps_document
              [ ("version", Storage.JNum "0");
                ("features",
                 Storage.JList
                   [ Storage.JObj [("name", Storage.JStr "wind_speed");
                                   ("inferred_type", Storage.JStr "Fractional")];
                     Storage.JObj [("name", Storage.JStr "breakdown");
                                   ("inferred_type", Storage.JStr "String")] ]) ]
              [_] _ eq_refl)
    as (fields' & Hrun & Hkeys & Hother & _).
  exists fields'. split; [exact Hrun|]. split; [exact Hkeys|].
  by rewrite Hother.
Defined.

(** X7. Running the cells that rewrite the baseline files a second time
    rotates the features once more: after two runs the two last features of
    the files the baselining job produced are in front, in their order, and
    each file has been uploaded twice. *)
Theorem rewrite_baseline_twice_rotates_twice
  (bucket_name : string) (w : Storage.world)
  (sfields cfields : list (string * Storage.json))
  (sxs cxs : list Storage.json) (sy sx cy cx : Storage.json)
  (Hs : Storage.s3 w !! Storage.statistics_path bucket_name
        = Some (Storage.Json (Storage.JObj sfields)))
  (Hsf : Storage.lookup_field "features" sfields
         = Some (Storage.JList (sxs ++ [sy; sx])))
  (Hc : Storage.s3 w !! Storage.constraints_path bucket_name
        = Some (Storage.Json (Storage.JObj cfields)))
  (Hcf : Storage.lookup_field "features" cfields
         = Some (Storage.JList (cxs ++ [cy; cx]))) :
  exists w1 w2,
    Storage.rewrite_baseline bucket_name w = Ok w1 /\
    Storage.rewrite_baseline bucket_name w1 = Ok w2 /\
    Storage.s3 w2 !! Storage.statistics_path bucket_name
    = Some (Storage.Json (Storage.JObj
              (Storage.update_field "features"
                 (Storage.JList (sy :: sx :: sxs)) sfields))) /\
    Storage.s3 w2 !! Storage.constraints_path bucket_name
    = Some (Storage.Json (Storage.JObj
              (Storage.update_field "features"
                 (Storage.JList (cy :: cx :: cxs)) cfields))) /\
    Storage.s3_puts w2
    = (Storage.s3_puts w
       ++ [ Storage.statistics_path bucket_name;
            Storage.constraints_path bucket_name;
            Storage.statistics_path bucket_name;
            Storage.constraints_path bucket_name ])%list.
Proof.
  assert (Hsf' : Storage.lookup_field "features" sfields
                 = Some (Storage.JList ((sxs ++ [sy]) ++ [sx])))
    by (by rewrite <- app_assoc).
  assert (Hcf' : Storage.lookup_field "features" cfields
                 = Some (Storage.JList ((cxs ++ [cy]) ++ [cx])))
    by (by rewrite <- app_assoc).
  destruct (rewrite_baseline_result bucket_name w _ _ _ _ _ _ Hs Hsf' Hc Hcf')
    as (w1 & Hw1 & Hs1 & Hc1 & Hputs1 & _).
  destruct (rewrite_baseline_result bucket_name w1 _ (sx :: sxs) sy
              _ (cx :: cxs) cy Hs1
              (lookup_update_field_eq _ _ _ _ Hsf') Hc1
              (lookup_update_field_eq _ _ _ _ Hcf'))
    as (w2 & Hw2 & Hs2 & Hc2 & Hputs2 & _).
  exists w1, w2. split; [done|]. split; [done|].
  rewrite Hs2, Hc2, Hputs2, Hputs1, !update_field_twice.
  split; [done|]. split; [done|]. by rewrite <- app_assoc.
Qed.

Lemma rewrite_baseline_twice_rotates_twice_witness :
  exists w1 w2,
    Storage.rewrite_baseline "bucket" Storage.after_baselining = Ok w1 /\
    Storage.rewrite_baseline "bucket" w1 = Ok w2 /\
    length (Storage.s3_puts w2) = 4%nat.
Proof.
  destruct (rewrite_baseline_twice_rotates_twice "bucket"
              Storage.after_baselining _ _ [] [] _ _ _ _
              eq_refl eq_refl eq_refl eq_refl)
    as (w1 & w2 & H1 & H2 & _ & _ & Hputs).
  exists w1, w2. split; [exact H1|]. split; [exact H2|]. by rewrite Hputs.
Defined.


(** ** The table-schema update: what it keeps and when it fails *)

(** X8. For a table that has the [CatalogId] entry and a dictionary under
    [StorageDescriptor], the table sent back has none of the six removed
    keys, has every other entry of the crawled table as it was, and its
    storage descriptor differs from the crawled one in [Columns] only (the
    location and the formats the crawler found are kept). *)
Theorem updated_table_keeps_the_rest
  (Table : gmap string Glue.tvalue) (sd : gmap string Glue.svalue)
  (Hcat : Table !! "CatalogId" <> None)
  (Hsd : Table !! "StorageDescriptor" = Some (Glue.TDict sd)) :
  exists t sd',
    Glue.updated_table Table = Ok t /\
    (forall k, In k UpdateTable.removed_keys -> t !! k = None) /\
    (forall k, ~ In k UpdateTable.removed_keys -> k <> "StorageDescriptor" ->
               t !! k = Table !! k) /\
    t !! "StorageDescriptor" = Some (Glue.TDict sd') /\
    sd' !! "Columns" = Some (Glue.SColumns Glue.Columns) /\
    (forall k, k <> "Columns" -> sd' !! k = sd !! k).
Proof.
  unfold Glue.updated_table.
  destruct (Table !! "CatalogId") as [c|] eqn:Hc; [|done].
  rewrite lookup_delete_ne by done. rewrite Hsd.
  eexists _, (<["Columns" := Glue.SColumns Glue.Columns]> sd).
  split; [reflexivity|]. unfold Glue.pop.
  split; [|split; [|split; [|split]]].
  - intros k Hk. simpl in Hk.
    destruct Hk as [<-|[<-|[<-|[<-|[<-|[<-|[]]]]]]];
      rewrite ?lookup_delete_eq; try done;
      repeat (rewrite lookup_delete_ne by done; rewrite ?lookup_delete_eq);
      try done.
    rewrite lookup_insert_ne by done. apply lookup_delete_eq.
  - intros k Hk Hsdk. simpl in Hk.
    rewrite !lookup_delete_ne by (intros <-; apply Hk; tauto).
    rewrite lookup_insert_ne by done.
    apply lookup_delete_ne. intros <-. apply Hk. tauto.
  - rewrite !lookup_delete_ne by done. apply lookup_insert_eq.
  - apply lookup_insert_eq.
  - intros k Hk. by apply lookup_insert_ne.
Qed.

Lemma updated_table_keeps_the_rest_witness :
  exists t,
    Glue.updated_table Glue.crawled_table = Ok t /\
    t !! "Name" = Some (Glue.TText "raw") /\
    t !! "CreatedBy" = None.
Proof.
  destruct (updated_table_keeps_the_rest Glue.crawled_table
              (<["Location" := Glue.SText "s3://bucket/endtoendmlsm/data/raw/"]>
               (<["Columns" := Glue.SColumns [Glue.Column "col0" "string"]]> ∅)))
    as (t & sd' & Hrun & Hremoved & Hkept & _).
  - vm_compute. discriminate.
  - reflexivity.
  - exists t. split; [exact Hrun|]. split.
    + rewrite Hkept; [reflexivity| |done].
      unfold UpdateTable.removed_keys. simpl. intros H.
      repeat (destruct H as [H|H]; [discriminate|]). done.
    + apply Hremoved. in_list.
Defined.

(** X9. The update cell cannot be run twice on the same [table]: it
    succeeds only on a table that has [CatalogId] and a dictionary under
    [StorageDescriptor], and on the table it has produced it raises
    [KeyError], because [CatalogId] is gone. *)
Theorem update_cell_not_rerunnable (Table t : gmap string Glue.tvalue)
  (Hrun : Glue.updated_table Table = Ok t) :
  Table !! "CatalogId" <> None /\
  (exists sd, Table !! "StorageDescriptor" = Some (Glue.TDict sd)) /\
  Glue.updated_table t = Raise KeyError /\
  Glue.update_table t = Raise KeyError.
Proof.
  assert (Hpre : Table !! "CatalogId" <> None /\
                 exists sd, Table !! "StorageDescriptor" = Some (Glue.TDict sd)).
  { unfold Glue.updated_table in Hrun.
    destruct (Table !! "CatalogId") as [c|]; [|done].
    rewrite lookup_delete_ne in Hrun by done.
    destruct (Table !! "StorageDescriptor") as [[s|sd]|]; try done.
    split; [done|]. by exists sd. }
  destruct Hpre as [Hcat [sd Hsd]].
  destruct (updated_table_columns Table sd Hcat Hsd) as (t' & Ht' & _ & Hgone & _).
  rewrite Hrun in Ht'. injection Ht' as <-.
  assert (Hagain : Glue.updated_table t = Raise KeyError)
    by (unfold Glue.updated_table; by rewrite Hgone).
  split; [done|]. split; [by exists sd|]. split; [done|].
  unfold Glue.update_table. by rewrite Hagain.
Qed.

Lemma update_cell_not_rerunnable_witness :
  exists t,
    Glue.updated_table Glue.crawled_table = Ok t /\
    Glue.updated_table t = Raise KeyError.
Proof.
  destruct (Glue.updated_table Glue.crawled_table) as [t|e] eqn:Hrun.
  - exists t. split; [reflexivity|].
    apply (update_cell_not_rerunnable Glue.crawled_table t Hrun).
  - vm_compute in Hrun. discriminate.
Defined.

(** ** The crawler wait: when it stops and what it asserts *)

Section CrawlerStopFacts.
Import Crawler.
Variable TablesCreated : nat -> Z.

Lemma poll_stopped : forall (fuel : nat) (st st' : state),
  poll fuel TablesCreated st = Some st' ->
  exists n, (n < fuel)%nat /\
            (forall k, (k < n)%nat -> TablesCreated (calls st + k) = 0) /\
            TablesCreated (calls st + n) <> 0.
Proof.
  induction fuel as [|fuel IH]; intros st st' H; [done|].
  simpl in H. destruct (Z.eqb_spec (TablesCreated (calls st)) 0) as [H0|H0].
  - destruct (IH _ _ H) as (n & Hn & Hzero & Hnz). simpl in Hzero, Hnz.
    exists (S n). split; [lia|]. split.
    + intros [|k] Hk; [by rewrite Nat.add_0_r|].
      rewrite Nat.add_succ_r. apply Hzero. lia.
    + by rewrite Nat.add_succ_r.
  - exists 0%nat. split; [lia|]. split; [intros k Hk; lia|].
    by rewrite Nat.add_0_r.
Qed.

End CrawlerStopFacts.

(** X10. When the crawler loop stops, the poll it stopped at reported a
    non-zero [TablesCreated] and every earlier poll reported zero; the cell
    has then printed [RUNNING] once and slept 15 seconds once for each
    earlier poll. *)
Theorem crawler_poll_stopped_on_first_table
  (TablesCreated : nat -> Z) (fuel : nat) (st : Crawler.state)
  (Hstopped : Crawler.poll fuel TablesCreated Crawler.init = Some st) :
  exists n,
    (n < fuel)%nat /\
    TablesCreated n <> 0 /\
    (forall k, (k < n)%nat -> TablesCreated k = 0) /\
    st = Crawler.stopped_after n /\
    Crawler.calls st = S (length (Crawler.printed st)) /\
    Crawler.slept st = 15 * Z.of_nat (length (Crawler.printed st)).
Proof.
  destruct (poll_stopped TablesCreated fuel _ _ Hstopped)
    as (n & Hn & Hzero & Hnz). simpl in Hzero, Hnz.
  exists n. split; [done|]. split; [done|]. split; [done|].
  rewrite (poll_stops TablesCreated n fuel Crawler.init Hzero Hnz Hn) in Hstopped.
  injection Hstopped as <-. simpl.
  split; [done|]. by rewrite length_replicate.
Qed.

Lemma crawler_poll_stopped_on_first_table_witness :
  exists n,
    (n < 10)%nat /\
    {| Crawler.calls := 3; Crawler.printed := ["RUNNING"; "RUNNING"];
       Crawler.slept := 30 |} = Crawler.stopped_after n.
Proof.
  destruct (crawler_poll_stopped_on_first_table
              (fun k => if (k <? 2)%nat then 0 else 1) 10
              {| Crawler.calls := 3; Crawler.printed := ["RUNNING"; "RUNNING"];
                 Crawler.slept := 30 |} eq_refl)
    as (n & Hn & _ & _ & Hst & _).
  exists n. by split.
Defined.

(** X11. The assertion after the loop asks the service again: the cell
    passes exactly when the poll after the one that ended the loop reports
    one table, whatever non-zero value ended the loop. *)
Theorem crawler_assert_uses_next_report
  (TablesCreated : nat -> Z) (n fuel : nat)
  (Hzero : forall k, (k < n)%nat -> TablesCreated k = 0)
  (Hn : TablesCreated n <> 0)
  (Hfuel : (n < fuel)%nat) :
  Crawler.wait_for_crawler fuel TablesCreated
  = Some (if Z.eqb (TablesCreated (S n)) 1
          then Ok {| Crawler.calls := S (S n);
                     Crawler.printed := replicate n "RUNNING";
                     Crawler.slept := 15 * Z.of_nat n |}
          else Raise AssertionError).
Proof.
  unfold Crawler.wait_for_crawler.
  rewrite (poll_stops TablesCreated n fuel Crawler.init Hzero Hn Hfuel).
  simpl. by destruct (Z.eqb (TablesCreated (S n)) 1).
Qed.

Lemma crawler_assert_uses_next_report_witness :
  Crawler.wait_for_crawler 5 (fun k => if (k <? 1)%nat then 0
                                       else if (k <? 2)%nat then 3 else 1)
  = Some (Ok {| Crawler.calls := 3; Crawler.printed := ["RUNNING"];
                Crawler.slept := 15 |}).
Proof.
  apply (crawler_assert_uses_next_report
           (fun k => if (k <? 1)%nat then 0 else if (k <? 2)%nat then 3 else 1)
           1 5).
  - intros k Hk. by destruct k; [|lia].
  - done.
  - lia.
Defined.


(** ** The registry paths and the uploaded inference code *)

Section DeployFacts.
Import PyStr Registry Deploy.

Lemma rfind_absent s : contains "/" s = false -> rfind "/" s = -1.
Proof. intros H. unfold rfind. by apply rfind_from_absent. Qed.

Lemma slice_to_drop_last t c : slice_to (t +:+ String c "") (-1) = t.
Proof.
  unfold slice_to. rewrite length_append. simpl.
  replace (Z.max 0 (-1 + Z.of_nat (String.length t + 1)))
    with (Z.of_nat (String.length t)) by lia.
  rewrite Nat2Z.id. apply substring_prefix.
Qed.










End DeployFacts.

(** X12. When [sklearn_model_data] contains no ['/'], [rfind] gives [-1]
    and nothing fails: [sklearn_model_path] is [sklearn_model_data] without
    its last character, followed by ['/'], and [xgboost_model_path] is
    [xgboost_model_data] without its last character, followed by ['/']. *)
Theorem model_paths_without_slash (stem xgb_stem : string) (c d : ascii)
  (Hnoslash : PyStr.contains "/" (stem +:+ String c "") = false) :
  Registry.sklearn_model_path (stem +:+ String c "") = stem +:+ "/" /\
  Registry.xgboost_model_path (stem +:+ String c "") (xgb_stem +:+ String d "")
  = xgb_stem +:+ "/" /\
  Registry.xgboost_model_path (stem +:+ String c "") "" = "/".
Proof.
  unfold Registry.sklearn_model_path, Registry.xgboost_model_path.
  rewrite (rfind_absent _ Hnoslash), !slice_to_drop_last. by repeat split.
Qed.

Lemma model_paths_without_slash_witness :
  Registry.sklearn_model_path "model.tar.gz" = "model.tar.g/".
Proof. apply (model_paths_without_slash "model.tar.g" "" "z" "z"). reflexivity. Defined.




(** With a model-data value that is no URI, the first archive is not
    uploaded, and the second goes under the XGBoost model data cut by one
    character. *)
Example upload_with_a_local_model_path :
  Storage.s3_puts
    (Deploy.upload_source_dirs (fun _ => true) "model.tar.gz"
       "s3://bucket/endtoendmlsm/output/xgboost/model.tar.gz"
       (Storage.Blob "sklearn code") (Storage.Blob "xgboost code")
       Storage.after_baselining)
  = (Storage.s3_puts Storage.after_baselining
     ++ ["s3://bucket/endtoendmlsm/output/xgboost/model.tar.g/xgboost_sourcedir.tar.gz"])%list.
Proof. reflexivity. Qed.

(** ** The capture files *)

Section CaptureFacts.
Import PyStr Capture.

Lemma getitem_last_index {A : Type} (l : list A) (x : A) :
  PyList.getitem (l ++ [x]) (Z.of_nat (length (l ++ [x])) - 1) = Ok x.
Proof.
  unfold PyList.getitem, PyList.index. rewrite length_app. simpl.
  replace (Z.of_nat (length l + 1) - 1) with (Z.of_nat (length l)) by lia.
  replace (Z.ltb (Z.of_nat (length l)) 0) with false
    by (symmetry; apply Z.ltb_ge; lia).
  replace (Z.leb 0 (Z.of_nat (length l))) with true
    by (symmetry; apply Z.leb_le; lia).
  replace (Z.ltb (Z.of_nat (length l)) (Z.of_nat (length l + 1)%nat)) with true
    by (symmetry; apply Z.ltb_lt; lia).
  simpl. rewrite Nat2Z.id. by rewrite list_lookup_middle.
Qed.

Lemma object_uri_has_slash bucket_name Key :
  contains "/" (object_uri bucket_name Key) = true.
Proof. reflexivity. Qed.

End CaptureFacts.

(** X15. From the response of [list_objects] to [data_capture_path]: a
    response without ['Contents'] is a [TypeError] in the listing, an empty
    ['Contents'] is an [IndexError] in the path, and otherwise the path is
    the URI of the last listed object cut before its last ['/'] (the
    folder of the last capture file, without a trailing slash), whatever
    the other entries are. *)
Theorem data_capture_path_is_folder_of_last_file
  (bucket_name : string) (entries : list (option string)) (Key : option string) :
  Capture.list_uris bucket_name None = Raise TypeError /\
  (capture_files <- Capture.list_uris bucket_name (Some []) ;;
   Capture.data_capture_path capture_files) = Raise IndexError /\
  exists folder,
    (capture_files <- Capture.list_uris bucket_name (Some (entries ++ [Key])%list) ;;
     Capture.data_capture_path capture_files) = Ok folder /\
    folder +:+ "/" = Registry.parent_prefix (Capture.object_uri bucket_name Key) /\
    (folder +:+ "/") +:+ Registry.basename (Capture.object_uri bucket_name Key)
    = Capture.object_uri bucket_name Key.
Proof.
  split; [reflexivity|]. split; [reflexivity|].
  destruct (last_slash_decompose _ (object_uri_has_slash bucket_name Key))
    as (d & b & Huri & Hb).
  exists d. unfold Capture.list_uris. cbn [bind].
  rewrite map_app. cbn [map]. unfold Capture.data_capture_path.
  rewrite getitem_last_index. cbn [bind]. rewrite Huri.
  rewrite rfind_decomposed, slice_to_prefix by done.
  split; [done|].
  rewrite parent_prefix_decomposed, basename_decomposed by done.
  split; [done|]. apply append_assoc_slash.
Qed.


(** ** How a cell without a handler ends, and which cells can loop *)

Section OutcomeFacts.
Import Notebook Cells.
Variable o : oracle.




End OutcomeFacts.



(** ** The pipeline: when the models are registered *)

Section RegisterFacts.
Import Workflow.
Variable steps : list step.

Lemma schedule_ok_started (pre : list event) :
  forall (started completed : list string) (n : string) (post : list event),
    schedule_ok steps started completed (pre ++ StepCompleted n :: post) = true ->
    n ∈ started \/ In (StepStarted n) pre.
Proof.
  induction pre as [|e pre IH]; intros started completed n post Hok.
  - left. simpl in Hok.
    apply andb_true_iff in Hok as [Hok _].
    apply andb_true_iff in Hok as [Hin _].
    by apply bool_decide_eq_true in Hin.
  - destruct e as [m|m]; simpl in Hok.
    + destruct (find_step steps m); [|done].
      apply andb_true_iff in Hok as [_ Hok].
      destruct (IH _ _ _ _ Hok) as [Hin|?]; [|right; by right].
      apply elem_of_cons in Hin as [->|?]; [right; by left|by left].
    + apply andb_true_iff in Hok as [_ Hok].
      destruct (IH _ _ _ _ Hok) as [?|?]; [by left|right; by right].
Qed.

Lemma find_step_unique (s : step) :
  NoDup (map step_name_of steps) -> In s steps ->
  find_step steps (step_name_of s) = Some s.
Proof.
  unfold find_step. induction steps as [|s' l IH]; simpl; [done|].
  intros Hnodup Hin. apply NoDup_cons in Hnodup as [Hfresh Hnodup].
  destruct (String.eqb (step_name_of s') (step_name_of s)) eqn:Heq.
  - destruct Hin as [->|Hin]; [done|].
    apply String.eqb_eq in Heq. exfalso. apply Hfresh. rewrite Heq.
    apply list_elem_of_In, in_map, Hin.
  - destruct Hin as [->|Hin]; [by rewrite String.eqb_refl in Heq|].
    by apply IH.
Qed.

(** A step whose properties are used has started and completed before the
    step that uses them starts. *)
Lemma dependency_ran (n d : string) (s : step) (pre post : list event) :
  execution_trace steps (pre ++ StepStarted n :: post) = true ->
  find_step steps n = Some s ->
  In d (depends_on s) ->
  exists before between,
    pre = (before ++ StepStarted d :: between)%list /\
    In (StepCompleted d) between.
Proof.
  unfold execution_trace. intros Hok Hs Hd.
  destruct (schedule_ok_dependencies steps pre [] [] n post s d Hok Hs Hd)
    as [Hin|Hin]; [by apply elem_of_nil in Hin|].
  apply in_split in Hin as (p1 & p2 & ->).
  rewrite <- app_assoc in Hok. simpl in Hok.
  destruct (schedule_ok_started p1 [] [] d _ Hok) as [Hin|Hin];
    [by apply elem_of_nil in Hin|].
  apply in_split in Hin as (q1 & q2 & ->).
  exists q1, (q2 ++ StepCompleted d :: p2)%list. split.
  - by rewrite <- app_assoc.
  - apply in_or_app. right. by left.
Qed.

End RegisterFacts.

(** X18. In every sequence of step events in which the steps of the
    definition that is sent (six steps, with the repack steps the SDK adds,
    whatever distinct names the SDK gives them) start only after the steps
    whose properties they use have completed: the XGBoost model is
    registered only after its repack step, the training step and the
    processing step have completed, and the featurizer model only after its
    repack step and the processing step have completed.  The featurizer
    model does not wait for the training: with the SDK's names it can be
    registered before the training step starts. *)
Theorem models_registered_after_their_steps
  (bucket_name : string) (repack_name register_name : string -> string)
  (tr : list Workflow.event)
  (Hnames : NoDup (map Workflow.step_name_of
                     (Workflow.definition bucket_name repack_name register_name)))
  (Htrace : Workflow.execution_trace
              (Workflow.definition bucket_name repack_name register_name) tr
            = true) :
  (forall pre post,
      tr = (pre ++ Workflow.StepStarted (register_name "RegisterXGBoostModel")
                :: post)%list ->
      In (Workflow.StepCompleted (repack_name "RegisterXGBoostModel")) pre /\
      In (Workflow.StepCompleted "Training") pre /\
      In (Workflow.StepCompleted "Processing") pre) /\
  (forall pre post,
      tr = (pre ++ Workflow.StepStarted (register_name "RegisterFeaturizerModel")
                :: post)%list ->
      In (Workflow.StepCompleted (repack_name "RegisterFeaturizerModel")) pre /\
      In (Workflow.StepCompleted "Processing") pre) /\
  Workflow.execution_trace
    (Workflow.definition bucket_name Workflow.repack_suffix Workflow.same_name)
    [ Workflow.StepStarted "Processing"; Workflow.StepCompleted "Processing";
      Workflow.StepStarted "RegisterFeaturizerModelRepackModel";
      Workflow.StepCompleted "RegisterFeaturizerModelRepackModel";
      Workflow.StepStarted "RegisterFeaturizerModel";
      Workflow.StepCompleted "RegisterFeaturizerModel";
      Workflow.StepStarted "Training"; Workflow.StepCompleted "Training";
      Workflow.StepStarted "RegisterXGBoostModelRepackModel";
      Workflow.StepCompleted "RegisterXGBoostModelRepackModel";
      Workflow.StepStarted "RegisterXGBoostModel";
      Workflow.StepCompleted "RegisterXGBoostModel" ] = true.
Proof.
  set (defn := Workflow.definition bucket_name repack_name register_name) in *.
  assert (Hfind : forall s, In s defn ->
             Workflow.find_step defn (Workflow.step_name_of s) = Some s).
  { intros s Hs. by apply find_step_unique. }
  assert (Hran : forall n d s pre post,
             tr = (pre ++ Workflow.StepStarted n :: post)%list ->
             In s defn -> Workflow.step_name_of s = n ->
             In d (Workflow.depends_on s) ->
             exists before between,
               pre = (before ++ Workflow.StepStarted d :: between)%list /\
               In (Workflow.StepCompleted d) between).
  { intros n d s pre post Htr Hs <- Hd. rewrite Htr in Htrace.
    apply (dependency_ran defn _ d s pre post Htrace); [by apply Hfind|done]. }
  assert (Hin : forall e (before between : list Workflow.event) d,
             In e between ->
             In e (before ++ Workflow.StepStarted d :: between)%list).
  { intros e before between d He. apply in_or_app. right. by right. }
  split; [|split; [|reflexivity]].
  - intros pre post Htr.
    destruct (Hran _ (repack_name "RegisterXGBoostModel") _ pre post Htr
                ltac:(unfold defn; simpl; do 5 right; left; reflexivity) eq_refl ltac:(in_list))
      as (b1 & c1 & -> & Hrepack).
    rewrite <- app_assoc in Htr. simpl in Htr.
    destruct (Hran _ "Training" _ b1 _ Htr
                ltac:(unfold defn; simpl; do 4 right; left; reflexivity) eq_refl ltac:(in_list))
      as (b2 & c2 & -> & Htraining).
    rewrite <- app_assoc in Htr. simpl in Htr.
    destruct (Hran _ "Processing" _ b2 _ Htr
                ltac:(unfold defn; simpl; do 1 right; left; reflexivity) eq_refl ltac:(in_list))
      as (b3 & c3 & -> & Hprocessed).
    split; [by apply Hin|]. split.
    + apply in_or_app. left. by apply Hin.
    + apply in_or_app. left. apply in_or_app. left. by apply Hin.
  - intros pre post Htr.
    destruct (Hran _ (repack_name "RegisterFeaturizerModel") _ pre post Htr
                ltac:(unfold defn; simpl; do 3 right; left; reflexivity) eq_refl ltac:(in_list))
      as (b1 & c1 & -> & Hrepack).
    rewrite <- app_assoc in Htr. simpl in Htr.
    destruct (Hran _ "Processing" _ b1 _ Htr
                ltac:(unfold defn; simpl; do 2 right; left; reflexivity) eq_refl ltac:(in_list))
      as (b2 & c2 & -> & Hprocessed).
    split; [by apply Hin|].
    apply in_or_app. left. by apply Hin.
Qed.

Lemma models_registered_after_their_steps_witness :
  In (Workflow.StepCompleted "RegisterFeaturizerModelRepackModel")
     [ Workflow.StepStarted "Processing"; Workflow.StepCompleted "Processing";
       Workflow.StepStarted "RegisterFeaturizerModelRepackModel";
       Workflow.StepCompleted "RegisterFeaturizerModelRepackModel" ] /\
  In (Workflow.StepCompleted "Processing")
     [ Workflow.StepStarted "Processing"; Workflow.StepCompleted "Processing";
       Workflow.StepStarted "RegisterFeaturizerModelRepackModel";
       Workflow.StepCompleted "RegisterFeaturizerModelRepackModel" ].
Proof.
  apply (proj1 (proj2 (models_registered_after_their_steps "bucket"
           Workflow.repack_suffix Workflow.same_name
           [ Workflow.StepStarted "Processing"; Workflow.StepCompleted "Processing";
             Workflow.StepStarted "RegisterFeaturizerModelRepackModel";
             Workflow.StepCompleted "RegisterFeaturizerModelRepackModel";
             Workflow.StepStarted "RegisterFeaturizerModel";
             Workflow.StepCompleted "RegisterFeaturizerModel";
             Workflow.StepStarted "Training"; Workflow.StepCompleted "Training";
             Workflow.StepStarted "RegisterXGBoostModelRepackModel";
             Workflow.StepCompleted "RegisterXGBoostModelRepackModel";
             Workflow.StepStarted "RegisterXGBoostModel";
             Workflow.StepCompleted "RegisterXGBoostModel" ]
           ltac:(apply (bool_decide_unpack _); reflexivity) eq_refl))
         [ Workflow.StepStarted "Processing"; Workflow.StepCompleted "Processing";
           Workflow.StepStarted "RegisterFeaturizerModelRepackModel";
           Workflow.StepCompleted "RegisterFeaturizerModelRepackModel" ]
         [ Workflow.StepCompleted "RegisterFeaturizerModel";
           Workflow.StepStarted "Training"; Workflow.StepCompleted "Training";
           Workflow.StepStarted "RegisterXGBoostModelRepackModel";
           Workflow.StepCompleted "RegisterXGBoostModelRepackModel";
           Workflow.StepStarted "RegisterXGBoostModel";
           Workflow.StepCompleted "RegisterXGBoostModel" ]).
  reflexivity.
Defined.


(** ** The first record of a capture file *)

Section FirstRecordFacts.
Import PyStr.

Lemma split_head sep s :
  exists first rest,
    Version.split sep s = first :: rest /\
    contains sep first = false /\
    (s = first \/ exists tail, s = first +:+ String sep tail).
Proof.
  induction s as [|a s (first & rest & Hsplit & Hfirst & Hs)].
  - exists EmptyString, []. split; [done|]. split; [done|]. by left.
  - simpl. destruct (Ascii.eqb a sep) eqn:Ha.
    + apply Ascii.eqb_eq in Ha as ->.
      exists EmptyString, (Version.split sep s).
      split; [done|]. split; [done|]. right. by exists s.
    + rewrite Hsplit. exists (String a first), rest.
      split; [done|]. split; [simpl; by rewrite Ha|].
      destruct Hs as [->|(tail & ->)]; [by left|].
      right. by exists tail.
Qed.

End FirstRecordFacts.

(** X19. Taking the first record of a capture file never fails, whatever
    was read, and gives the text before the first newline: the record
    holds no newline, and the text read is either the record alone or the
    record, a newline and the rest; so the record is the empty text for an
    empty file and for a file that starts with a newline. *)
Theorem first_record_is_first_line (data : string) :
  exists first,
    Capture.first_record data = Ok first /\
    PyStr.contains "010" first = false /\
    (data = first \/ exists tail, data = first +:+ String "010" tail).
Proof.
  destruct (split_head "010" data) as (first & rest & Hsplit & Hfirst & Hdata).
  exists first. unfold Capture.first_record. rewrite Hsplit.
  by repeat split.
Qed.
